(** * ops-guide-ai: risk scoring, policy validation and approval workflow

    A shallow embedding of [src/riskAssessment/risk_engine.py],
    [src/riskAssessment/policy_validator.py] and
    [src/riskAssessment/approval_manager.py], together with the parts of
    [src/models/core_models.py] and [src/planGeneration/plan_generator.py]
    they read.

    Conventions of the embedding:
    - a Python [float] is an IEEE-754 binary64 number: the kernel's
      primitive [float], with the same literals and the same rounding;
    - a Python [str] is a [string] of bytes (UTF-8); the only string
      operations the code uses are equality, [lower] and [in] against ASCII
      needles, which act on the bytes;
    - a Python [dict] is a [gmap]; [d.get(k, dflt)] is [default dflt (d !! k)];
    - a naive [datetime] is its number of microseconds since the epoch, a
      [Z] between [datetime.min] and [datetime.max]; arithmetic that leaves
      the range raises; every reading of the wall clock is an argument of
      the operation that reads it;
    - a call that can raise returns an [option], [None] standing for the
      exception;
    - mutable objects that are shared (the approval requests, and the
      approver lists inside the policy table) live in explicit state. *)

From Stdlib Require Import Floats ZArith Ascii.
From stdpp Require Import gmap strings list fin_maps sorting.

Set Warnings "-inexact-float,-register-all,-clear-no-such-hyp".

Local Open Scope string_scope.
Local Open Scope Z_scope.

(** ** Python values and string helpers *)

Module Py.

(** The values a JSON-like [Dict[str, Any]] can hold. *)
Inductive PyVal : Type :=
| PyNone
| PyBool (b : bool)
| PyInt (z : Z)
| PyFloat (f : float)
| PyStr (s : string)
| PyList (l : list PyVal)
| PyDict (l : list (string * PyVal)).

(** Truth value testing, as [bool(v)] / [not v]. *)
Definition truthy (v : PyVal) : bool :=
  match v with
  | PyNone => false
  | PyBool b => b
  | PyInt z => negb (z =? 0)
  | PyFloat f => negb (PrimFloat.eqb f 0%float)
  | PyStr s => negb (String.eqb s "")
  | PyList l => match l with [] => false | _ => true end
  | PyDict l => match l with [] => false | _ => true end
  end.

(** [not d.get(k)]: a missing key yields [None], which is falsy. *)
Definition get_truthy (d : gmap string PyVal) (k : string) : bool :=
  truthy (default PyNone (d !! k)).

Definition ascii_lower (c : ascii) : ascii :=
  let n := N_of_ascii c in
  if ((65 <=? n) && (n <=? 90))%N then ascii_of_N (n + 32) else c.

(** [s.lower()] on the ASCII letters. *)
Fixpoint lower (s : string) : string :=
  match s with
  | EmptyString => EmptyString
  | String c t => String (ascii_lower c) (lower t)
  end.

(** [needle in hay] for strings: [needle] occurs as a substring. *)
Fixpoint contains (needle hay : string) : bool :=
  if String.prefix needle hay then true
  else match hay with
       | EmptyString => false
       | String _ t => contains needle t
       end.

(** [x in xs] for a list of strings. *)
Definition str_in (x : string) (xs : list string) : bool :=
  bool_decide (x ∈ xs).

(** [list(set(xs))]: the distinct elements of [xs], in an order the
    language leaves unspecified. *)
Definition list_set (xs : list string) : list string :=
  elements (list_to_set xs : gset string).

#[global] Arguments list_set : simpl never.
#[global] Arguments str_in : simpl never.

End Py.

(** ** [src/models/core_models.py] *)

Module Models.

Inductive UseCase : Type := OPERATIONAL_ASK.

(** [TaskId], as [core_models.py] declares it: two members, each with its
    own name as value. *)
Inductive TaskId : Type :=
| CANCEL_ORDER
| CHANGE_ORDER_STATUS.

Definition TaskId_value (t : TaskId) : string :=
  match t with
  | CANCEL_ORDER => "CANCEL_ORDER"
  | CHANGE_ORDER_STATUS => "CHANGE_ORDER_STATUS"
  end.

(** The attribute access [TaskId.NAME] for a member name: [None] stands for
    the [AttributeError] the enumeration raises for a name it does not
    declare. [risk_engine.py] (like [pattern_classifier.py],
    [vector_search.py], [prompt_templates.py] and [server.py]) reads
    [TaskId.CANCEL_CASE], [TaskId.CHANGE_CASE_STATUS] and
    [TaskId.RECONCILE_CASE_DATA]. *)
Definition TaskId_attr (name : string) : option TaskId :=
  if String.eqb name "CANCEL_ORDER" then Some CANCEL_ORDER
  else if String.eqb name "CHANGE_ORDER_STATUS" then Some CHANGE_ORDER_STATUS
  else None.

#[global] Instance TaskId_eq_dec : EqDecision TaskId.
Proof. solve_decision. Defined.

Definition TaskId_to_nat (t : TaskId) : nat :=
  match t with
  | CANCEL_ORDER => 0
  | CHANGE_ORDER_STATUS => 1
  end%nat.

Definition TaskId_of_nat (n : nat) : TaskId :=
  match n with
  | 0 => CANCEL_ORDER
  | _ => CHANGE_ORDER_STATUS
  end%nat.

#[global] Instance TaskId_countable : Countable TaskId.
Proof. apply (inj_countable' TaskId_to_nat TaskId_of_nat). by intros []. Defined.

Record OperationalRequest : Type := {
  request_id : string;
  user_id : string;
  query : string;
  context : gmap string Py.PyVal;
  environment : option string;
  timestamp : Z
}.

Record ClassificationResult : Type := {
  use_case : UseCase;
  task_id : option TaskId;
  confidence : float;
  extracted_entities : gmap string Py.PyVal;
  cls_environment : option string;
  service : option string
}.

End Models.

(** ** [src/riskAssessment/risk_engine.py] *)

Module RiskEngine.
Import Py Models.

Inductive RiskLevel : Type := LOW | MEDIUM | HIGH | CRITICAL.

#[global] Instance RiskLevel_eq_dec : EqDecision RiskLevel.
Proof. solve_decision. Defined.

Definition RiskLevel_value (l : RiskLevel) : string :=
  match l with
  | LOW => "LOW"
  | MEDIUM => "MEDIUM"
  | HIGH => "HIGH"
  | CRITICAL => "CRITICAL"
  end.

Module RiskFactor.
Record t : Type := mk {
  name : string;
  score : float;
  weight : float;
  description : string
}.
End RiskFactor.

Module RiskAssessment.
Record t : Type := mk {
  risk_level : RiskLevel;
  score : float;
  factors : list RiskFactor.t;
  requires_approval : bool;
  constraints : gmap string PyVal
}.
End RiskAssessment.

(** The tables [__init__] builds; no method writes to them. *)
Definition environment_risk : gmap string float :=
  <["dev" := 0.1%float]> (<["staging" := 0.3%float]> (<["prod" := 1.0%float]> ∅)).

(** The dict display assigned to [self.task_risk]: its keys are evaluated
    in order, and each is an attribute access on [TaskId] that can raise
    ([None]). *)
Definition task_risk : option (gmap TaskId float) :=
  k1 ← TaskId_attr "CANCEL_CASE";
  k2 ← TaskId_attr "CHANGE_CASE_STATUS";
  k3 ← TaskId_attr "RECONCILE_CASE_DATA";
  Some (<[k3 := 0.8%float]> (<[k2 := 0.4%float]> (<[k1 := 0.7%float]> ∅))).

Definition business_hours_factor : float := 0.8%float.

Definition risk_thresholds (l : RiskLevel) : float :=
  match l with
  | LOW => 0.3
  | MEDIUM => 0.6
  | HIGH => 0.8
  | CRITICAL => 1.0
  end%float.

(** A [RiskEngine] object: of its attributes, the table whose construction
    can fail (the others are the constants above). *)
Module Engine.
Record t : Type := mk {
  task_risk : gmap TaskId float
}.
End Engine.

(** [RiskEngine()]: [None] when [__init__] raises. *)
Definition init : option Engine.t :=
  tr ← task_risk; Some (Engine.mk tr).

(** [_calculate_time_risk], on the hour of [datetime.now()]. *)
Definition _calculate_time_risk (hour : Z) : float :=
  if (9 <=? hour) && (hour <=? 17) then 0.2%float
  else if ((6 <=? hour) && (hour <=? 9)) || ((17 <=? hour) && (hour <=? 22))
       then 0.5%float
       else 0.8%float.

Definition _calculate_user_risk (user_id : string) : float :=
  if contains "admin" (lower user_id) || contains "ops" (lower user_id)
  then 0.2%float
  else if contains "engineer" (lower user_id) then 0.4%float
       else 0.7%float.

Definition _score_to_risk_level (score : float) : RiskLevel :=
  if PrimFloat.leb score (risk_thresholds LOW) then LOW
  else if PrimFloat.leb score (risk_thresholds MEDIUM) then MEDIUM
  else if PrimFloat.leb score (risk_thresholds HIGH) then HIGH
  else CRITICAL.

(** [_requires_approval]; [None] when it raises. The third test evaluates
    [TaskId.CANCEL_CASE] before it compares. *)
Definition _requires_approval
    (risk_level : RiskLevel) (environment : option string)
    (task_id : option TaskId) : option bool :=
  if bool_decide (environment = Some "prod")
     && bool_decide (risk_level ∈ [MEDIUM; HIGH; CRITICAL])
  then Some true
  else if bool_decide (risk_level ∈ [HIGH; CRITICAL]) then Some true
  else
    cancel_case ← TaskId_attr "CANCEL_CASE";
    if bool_decide (task_id = Some cancel_case)
       && bool_decide (environment ∈ [Some "staging"; Some "prod"])
    then Some true
    else Some false.

(** [_build_constraints]; [None] when it raises. The last test evaluates
    [TaskId.CANCEL_CASE] on every path. *)
Definition _build_constraints
    (risk_level : RiskLevel) (environment : option string)
    (task_id : option TaskId) : option (gmap string PyVal) :=
  let constraints : gmap string PyVal :=
    list_to_map
      [ ("api_only", PyBool true);
        ("max_retries", PyInt 3);
        ("timeout_minutes", PyInt 30);
        ("rollback_required",
          PyBool (bool_decide (risk_level ∈ [HIGH; CRITICAL])));
        ("monitoring_required", PyBool (negb (bool_decide (risk_level = LOW))));
        ("notification_required",
          PyBool (bool_decide (risk_level ∈ [HIGH; CRITICAL]))) ] in
  let constraints :=
    if bool_decide (environment = Some "prod")
    then <["approval_timeout_hours" := PyInt 24]>
           (<["backup_required" := PyBool true]>
              (<["timeout_minutes" := PyInt 15]>
                 (<["max_retries" := PyInt 1]> constraints)))
    else constraints in
  cancel_case ← TaskId_attr "CANCEL_CASE";
  if bool_decide (task_id = Some cancel_case)
  then Some (<["audit_trail_required" := PyBool true]>
               (<["confirmation_required" := PyBool true]> constraints))
  else Some constraints.

(** How the f-strings of [assess_risk] print an optional environment and
    an optional task (a member of a [str]-mixin [Enum] prints as
    [TaskId.NAME] from Python 3.11 on). *)
Definition fmt_environment (e : option string) : string := default "None" e.

Definition fmt_task_id (t : option TaskId) : string :=
  match t with
  | None => "None"
  | Some t => "TaskId." +:+ TaskId_value t
  end.

(** [assess_risk] on an engine object [self]; [None] when it raises.
    [hour] is the hour of the local wall clock read by
    [_calculate_time_risk]. [sum] is the built-in of the interpreter on a
    sequence of floats, whose rounding is the interpreter's (plain
    left-to-right addition up to CPython 3.11, compensated summation from
    3.12 on). The argument [plan_data] is never read. *)
Definition assess_risk
    (sum : list float → float) (self : Engine.t)
    (hour : Z) (request : OperationalRequest)
    (classification : ClassificationResult) : option RiskAssessment.t :=
  let env_risk := default 0.5%float (environment request ≫= (environment_risk !!.)) in
  let task_risk :=
    default 0.5%float (task_id classification ≫= (Engine.task_risk self !!.)) in
  let time_risk := _calculate_time_risk hour in
  let user_risk := _calculate_user_risk (user_id request) in
  let risk_factors :=
    [ RiskFactor.mk "Environment Risk" env_risk 2.0
        ("Risk associated with " +:+ fmt_environment (environment request)
           +:+ " environment");
      RiskFactor.mk "Task Complexity" task_risk 1.5
        ("Risk associated with " +:+ fmt_task_id (task_id classification)
           +:+ " operation");
      RiskFactor.mk "Timing Risk" time_risk 0.5
        "Risk based on current time and business hours";
      RiskFactor.mk "User Experience" user_risk 1.0
        "Risk based on user's operational experience" ] in
  let total_weighted_score :=
    sum (map (λ f, RiskFactor.score f * RiskFactor.weight f)%float risk_factors) in
  let total_weight := sum (map RiskFactor.weight risk_factors) in
  let overall_score := (total_weighted_score / total_weight)%float in
  let risk_level := _score_to_risk_level overall_score in
  requires_approval ←
    _requires_approval risk_level (environment request) (task_id classification);
  constraints ←
    _build_constraints risk_level (environment request) (task_id classification);
  Some (RiskAssessment.mk risk_level overall_score risk_factors
          requires_approval constraints).


End RiskEngine.

(** ** [OperationalPlan] of [src/planGeneration/plan_generator.py] *)

Module PlanGenerator.
Import Py.

Record OperationalPlan : Type := {
  summary : string;
  risk_level : string;
  requires_approval : bool;
  estimated_duration : string;
  pre_checks : list PyVal;
  procedure : list PyVal;
  post_checks : list PyVal;
  rollback : list PyVal;
  citations : list PyVal
}.

End PlanGenerator.

(** ** [src/riskAssessment/policy_validator.py] *)

Module PolicyValidator.
Import Py Models.

Module PolicyViolation.
Record t : Type := mk {
  policy_name : string;
  violation_type : string;
  description : string;
  severity : string
}.
End PolicyViolation.

Module PolicyValidationResult.
Record t : Type := mk {
  allowed : bool;
  violations : list PolicyViolation.t;
  constraints : gmap string PyVal;
  warnings : list string
}.
End PolicyValidationResult.

Definition environment_policies : gmap string (gmap string PyVal) :=
  <["prod" := list_to_map
      [ ("approval_required", PyBool true);
        ("max_risk_level", PyStr "MEDIUM");
        ("backup_required", PyBool true);
        ("rollback_plan_required", PyBool true);
        ("notification_required", PyBool true) ]]>
  (<["staging" := list_to_map
      [ ("approval_required", PyBool false);
        ("max_risk_level", PyStr "HIGH");
        ("backup_required", PyBool false);
        ("rollback_plan_required", PyBool true);
        ("notification_required", PyBool false) ]]>
  (<["dev" := list_to_map
      [ ("approval_required", PyBool false);
        ("max_risk_level", PyStr "HIGH");
        ("backup_required", PyBool false);
        ("rollback_plan_required", PyBool false);
        ("notification_required", PyBool false) ]]> ∅)).

Definition _has_production_access (user_id : string) : bool :=
  existsb (λ role, contains role (lower user_id)) ["ops"; "admin"; "engineer"].

Definition _validate_task_policies
    (classification : ClassificationResult) (request : OperationalRequest)
    : list PolicyViolation.t :=
  match task_id classification with
  | Some t =>
      if contains "CANCEL" (TaskId_value t)
         && (bool_decide (environment request = Some "prod")
             && negb (get_truthy (context request) "business_justification"))
      then [ PolicyViolation.mk "business_justification" "MISSING_CONTEXT"
               "Production case cancellations require business justification"
               "WARNING" ]
      else []
  | None => []
  end.

(** [_validate_time_policies], on the hour and the weekday (Monday is 0)
    of [datetime.now()]. *)
Definition _validate_time_policies
    (hour weekday : Z) (request : OperationalRequest) : list string :=
  ((if bool_decide (environment request = Some "prod")
       && negb ((9 <=? hour) && (hour <=? 17))
    then ["Production operation requested outside business hours"] else [])
   ++ (if 5 <=? weekday then ["Operation requested during weekend"] else []))%list.

Definition _validate_api_usage (plan : PlanGenerator.OperationalPlan)
    : list PolicyViolation.t := [].

Definition risk_levels : gmap string Z :=
  list_to_map [("LOW", 1); ("MEDIUM", 2); ("HIGH", 3); ("CRITICAL", 4)].

(** [risk_levels.get(v, dflt)] for a key that need not be a string. *)
Definition risk_levels_get (v : PyVal) (dflt : Z) : Z :=
  match v with
  | PyStr s => default dflt (risk_levels !! s)
  | _ => dflt
  end.

Definition _risk_exceeds_limit (plan_risk : string) (max_risk : PyVal) : bool :=
  risk_levels_get max_risk 3 <? risk_levels_get (PyStr plan_risk) 4.

Definition _build_policy_constraints
    (env_policy : gmap string PyVal) (classification : ClassificationResult)
    : gmap string PyVal :=
  list_to_map
    [ ("api_only", PyBool true);
      ("approval_required",
        default (PyBool false) (env_policy !! "approval_required"));
      ("backup_required",
        default (PyBool false) (env_policy !! "backup_required"));
      ("rollback_plan_required",
        default (PyBool false) (env_policy !! "rollback_plan_required"));
      ("notification_required",
        default (PyBool false) (env_policy !! "notification_required"));
      ("max_risk_level",
        default (PyStr "HIGH") (env_policy !! "max_risk_level")) ].

(** [len([v for v in violations if v.severity in ["ERROR", "CRITICAL"]]) == 0] *)
Definition no_blocking (violations : list PolicyViolation.t) : bool :=
  bool_decide
    (length (filter (λ v, PolicyViolation.severity v ∈ ["ERROR"; "CRITICAL"])
               violations) = 0%nat).

(** How an f-string prints a value taken from a policy table. *)
Definition fmt_val (v : PyVal) : string :=
  match v with
  | PyStr s => s
  | PyNone => "None"
  | PyBool true => "True"
  | PyBool false => "False"
  | _ => ""
  end.

(** [validate_request]; [risk_assessment] is accepted and never read. *)
Definition validate_request
    (hour weekday : Z) (request : OperationalRequest)
    (classification : ClassificationResult)
    (risk_assessment : option RiskEngine.RiskAssessment.t)
    : PolicyValidationResult.t :=
  let env_policy :=
    default (default ∅ (environment_policies !! "prod"))
            (environment request ≫= (environment_policies !!.)) in
  let violations :=
    if bool_decide (environment request = Some "prod")
       && negb (_has_production_access (user_id request))
    then [ PolicyViolation.mk "production_access" "AUTHORIZATION"
             ("User " +:+ user_id request +:+ " does not have production access")
             "ERROR" ]
    else [] in
  let violations := (violations ++ _validate_task_policies classification request)%list in
  let warnings := ([] ++ _validate_time_policies hour weekday request)%list in
  let constraints := _build_policy_constraints env_policy classification in
  let allowed := no_blocking violations in
  PolicyValidationResult.mk allowed violations constraints warnings.

Definition validate_plan
    (plan : PlanGenerator.OperationalPlan) (request : OperationalRequest)
    : PolicyValidationResult.t :=
  let violations := ([] ++ _validate_api_usage plan)%list in
  let violations :=
    if bool_decide (environment request = Some "prod")
       && match PlanGenerator.rollback plan with [] => true | _ => false end
    then (violations ++
         [ PolicyViolation.mk "rollback_required" "MISSING_PROCEDURE"
             "Production operations must include rollback procedures" "ERROR" ])%list
    else violations in
  let env_policy : gmap string PyVal :=
    default ∅ (environment request ≫= (environment_policies !!.)) in
  let max_risk := default (PyStr "HIGH") (env_policy !! "max_risk_level") in
  let violations :=
    if _risk_exceeds_limit (PlanGenerator.risk_level plan) max_risk
    then (violations ++
         [ PolicyViolation.mk "max_risk_level" "RISK_EXCEEDED"
             ("Plan risk level " +:+ PlanGenerator.risk_level plan
                +:+ " exceeds maximum " +:+ fmt_val max_risk +:+ " for "
                +:+ RiskEngine.fmt_environment (environment request))
             "ERROR" ])%list
    else violations in
  let allowed := no_blocking violations in
  PolicyValidationResult.mk allowed violations ∅ [].

(** A violation that blocks: severity ERROR or CRITICAL. *)
Definition blocking (v : PolicyViolation.t) : Prop :=
  PolicyViolation.severity v = "ERROR" ∨ PolicyViolation.severity v = "CRITICAL".

End PolicyValidator.

(** ** [src/riskAssessment/approval_manager.py] *)

Module ApprovalManager.
Import Py.

Inductive ApprovalStatus : Type :=
  PENDING | APPROVED | REJECTED | EXPIRED | CANCELLED.

#[global] Instance ApprovalStatus_eq_dec : EqDecision ApprovalStatus.
Proof. solve_decision. Defined.

(** The four states no transition leaves. *)
Definition terminal (s : ApprovalStatus) : Prop :=
  s = APPROVED ∨ s = REJECTED ∨ s = EXPIRED ∨ s = CANCELLED.

(** [timedelta(hours=h)], in microseconds. *)
Definition timedelta_hours (h : Z) : Z := h * 3600 * 1000000.

(** The ranges of [timedelta] (at most 999999999 days in magnitude) and of
    [datetime] (0001-01-01 00:00:00 to 9999-12-31 23:59:59.999999), in
    microseconds, the latter since 1970-01-01. *)
Definition timedelta_min : Z := -999999999 * 86400 * 1000000.
Definition timedelta_max : Z := (999999999 * 86400 + 86399) * 1000000 + 999999.
Definition datetime_min : Z := -62135596800 * 1000000.
Definition datetime_max : Z := 253402300799 * 1000000 + 999999.

(** [now + timedelta(hours=h)]; [None] is the [OverflowError] raised when
    the [timedelta] or the sum leaves its range. *)
Definition add_hours (now h : Z) : option Z :=
  let delta := timedelta_hours h in
  if (timedelta_min <=? delta) && (delta <=? timedelta_max)
     && (datetime_min <=? now + delta) && (now + delta <=? datetime_max)
  then Some (now + delta)
  else None.

Module ApprovalRequest.
Record t : Type := mk {
  request_id : string;
  operation_summary : string;
  risk_level : string;
  requester : string;
  approvers : list string;
  status : ApprovalStatus;
  created_at : Z;
  expires_at : Z;
  approved_by : option string;
  approved_at : option Z;
  rejection_reason : option string
}.

Definition set_status (s : ApprovalStatus) (r : t) : t :=
  mk (request_id r) (operation_summary r) (risk_level r) (requester r)
     (approvers r) s (created_at r) (expires_at r)
     (approved_by r) (approved_at r) (rejection_reason r).

Definition set_approved_by (a : option string) (r : t) : t :=
  mk (request_id r) (operation_summary r) (risk_level r) (requester r)
     (approvers r) (status r) (created_at r) (expires_at r)
     a (approved_at r) (rejection_reason r).

Definition set_approved_at (a : option Z) (r : t) : t :=
  mk (request_id r) (operation_summary r) (risk_level r) (requester r)
     (approvers r) (status r) (created_at r) (expires_at r)
     (approved_by r) a (rejection_reason r).

Definition set_rejection_reason (a : option string) (r : t) : t :=
  mk (request_id r) (operation_summary r) (risk_level r) (requester r)
     (approvers r) (status r) (created_at r) (expires_at r)
     (approved_by r) (approved_at r) a.
End ApprovalRequest.

(** One entry of [approval_policies]. The key ["eligible_approvers"] is
    absent from the LOW entry; where it is present its value is a list
    object that lives in the table. *)
Module Policy.
Record t : Type := mk {
  required : bool;
  approvers_needed : Z;
  timeout_hours : Z;
  eligible_approvers : option (list string)
}.

Definition set_eligible_approvers (l : list string) (p : t) : t :=
  mk (required p) (approvers_needed p) (timeout_hours p) (Some l).
End Policy.

(** What the two [_notify_*] methods print. *)
Inductive Notification : Type :=
| ApprovalNeeded (request : ApprovalRequest.t)
| DecisionMade (request_id decision : string) (approved_by : option string)
               (comments : string).

(** A reference to an [ApprovalRequest] object. *)
Definition ref : Type := nat.

(** The manager and the objects it refers to: the policy table with its
    approver lists, the dictionary from request id to request object, the
    request objects themselves (a request that [create_approval_request]
    replaces under its id stays alive for whoever holds it), and the lines
    printed so far. *)
Record t : Type := mk {
  approval_policies : gmap string Policy.t;
  approval_requests : gmap string ref;
  heap : list ApprovalRequest.t;
  printed : list Notification
}.

Definition set_policies (ps : gmap string Policy.t) (m : t) : t :=
  mk ps (approval_requests m) (heap m) (printed m).

Definition set_heap (h : list ApprovalRequest.t) (m : t) : t :=
  mk (approval_policies m) (approval_requests m) h (printed m).

Definition print (n : Notification) (m : t) : t :=
  mk (approval_policies m) (approval_requests m) (heap m) (printed m ++ [n])%list.

(** [__init__] *)
Definition initial_policies : gmap string Policy.t :=
  <["LOW" := Policy.mk false 0 0 None]>
  (<["MEDIUM" := Policy.mk true 1 24 (Some ["ops_lead"; "senior_engineer"])]>
  (<["HIGH" := Policy.mk true 2 12 (Some ["ops_manager"; "engineering_manager"])]>
  (<["CRITICAL" :=
      Policy.mk true 2 4 (Some ["ops_director"; "cto"; "vp_engineering"])]> ∅))).

Definition init : t := mk initial_policies ∅ [] [].

(** [self.approval_policies.get(risk_level, self.approval_policies["HIGH"])]:
    the entry found and the key it sits under. The default is evaluated
    first and raises [KeyError] ([None]) when there is no HIGH entry. *)
Definition get_policy (ps : gmap string Policy.t) (risk_level : string)
    : option (string * Policy.t) :=
  high ← ps !! "HIGH";
  Some (match ps !! risk_level with
        | Some p => (risk_level, p)
        | None => ("HIGH", high)
        end).

(** [_get_eligible_approvers]. [base_approvers] is the list stored in the
    table (or a fresh [["ops_manager"]] when the entry has none), so
    [extend] writes into the table. *)
Definition _get_eligible_approvers
    (m : t) (risk_level environment : string) : option (t * list string) :=
  '(key, policy) ← get_policy (approval_policies m) risk_level;
  let extends :=
    bool_decide (environment = "prod") && str_in risk_level ["HIGH"; "CRITICAL"] in
  match Policy.eligible_approvers policy with
  | Some base_approvers =>
      if extends
      then
        let base_approvers := (base_approvers ++ ["cto"; "vp_engineering"])%list in
        Some (set_policies
                (<[key := Policy.set_eligible_approvers base_approvers policy]>
                   (approval_policies m)) m,
              list_set base_approvers)
      else Some (m, list_set base_approvers)
  | None =>
      let base_approvers := ["ops_manager"] in
      Some (m, list_set (if extends
                         then (base_approvers ++ ["cto"; "vp_engineering"])%list
                         else base_approvers))
  end.

(** [create_approval_request]. [now_expires] is the clock read for
    [expires_at], [now_created] the one read by [ApprovalRequest.__init__].
    The result is [None] when the call raises, and otherwise the new state
    with the reference returned ([None] for "no approval needed"). *)
Definition create_approval_request
    (now_expires now_created : Z) (m : t)
    (request_id operation_summary risk_level requester environment : string)
    : option (t * option ref) :=
  '(_, policy) ← get_policy (approval_policies m) risk_level;
  if negb (Policy.required policy) then Some (m, None)
  else
    '(m, eligible_approvers) ← _get_eligible_approvers m risk_level environment;
    expires_at ← add_hours now_expires (Policy.timeout_hours policy);
    let approval_request :=
      ApprovalRequest.mk request_id operation_summary risk_level requester
        eligible_approvers PENDING now_created expires_at None None None in
    let r : ref := length (heap m) in
    let m := mk (approval_policies m)
                (<[request_id := r]> (approval_requests m))
                (heap m ++ [approval_request])%list
                (printed m) in
    Some (print (ApprovalNeeded approval_request) m, Some r).

(** The state a call of [create_approval_request] that raises leaves
    behind. The [KeyError] of the policy lookup comes before any
    assignment; the [OverflowError] of [expires_at] comes after
    [_get_eligible_approvers] has run, whose [extend] stays in the table. *)
Definition create_approval_request_raised
    (m : t) (risk_level environment : string) : t :=
  match _get_eligible_approvers m risk_level environment with
  | Some (m, _) => m
  | None => m
  end.

(** [self.approval_requests.get(request_id)], with the object read. *)
Definition get_request (m : t) (request_id : string)
    : option (ref * ApprovalRequest.t) :=
  r ← approval_requests m !! request_id;
  o ← heap m !! r;
  Some (r, o).

(** Assignment to attributes of the object behind [r]. *)
Definition store (r : ref) (o : ApprovalRequest.t) (m : t) : t :=
  set_heap (<[r := o]> (heap m)) m.

(** [check_approval_status]; [now] is the clock it reads. *)
Definition check_approval_status (now : Z) (m : t) (request_id : string)
    : t * option ref :=
  match get_request m request_id with
  | None => (m, None)
  | Some (r, approval_request) =>
      if (ApprovalRequest.expires_at approval_request <? now)
         && bool_decide (ApprovalRequest.status approval_request = PENDING)
      then (store r (ApprovalRequest.set_status EXPIRED approval_request) m, Some r)
      else (m, Some r)
  end.

(** [approve_request]; [now_check] is the clock read by the expiry test,
    [now_approved] the one stored in [approved_at]. *)
Definition approve_request
    (now_check now_approved : Z) (m : t)
    (request_id approver comments : string) : t * bool :=
  match get_request m request_id with
  | None => (m, false)
  | Some (r, approval_request) =>
      if negb (bool_decide (ApprovalRequest.status approval_request = PENDING))
      then (m, false)
      else if negb (str_in approver (ApprovalRequest.approvers approval_request))
      then (m, false)
      else if ApprovalRequest.expires_at approval_request <? now_check
      then (store r (ApprovalRequest.set_status EXPIRED approval_request) m, false)
      else
        let approval_request :=
          ApprovalRequest.set_approved_at (Some now_approved)
            (ApprovalRequest.set_approved_by (Some approver)
               (ApprovalRequest.set_status APPROVED approval_request)) in
        (print (DecisionMade (ApprovalRequest.request_id approval_request)
                  "APPROVED" (ApprovalRequest.approved_by approval_request)
                  comments)
           (store r approval_request m),
         true)
  end.

(** [reject_request]; it reads no clock. *)
Definition reject_request
    (m : t) (request_id approver reason : string) : t * bool :=
  match get_request m request_id with
  | None => (m, false)
  | Some (r, approval_request) =>
      if negb (bool_decide (ApprovalRequest.status approval_request = PENDING))
      then (m, false)
      else if negb (str_in approver (ApprovalRequest.approvers approval_request))
      then (m, false)
      else
        let approval_request :=
          ApprovalRequest.set_rejection_reason (Some reason)
            (ApprovalRequest.set_status REJECTED approval_request) in
        (print (DecisionMade (ApprovalRequest.request_id approval_request)
                  "REJECTED" (ApprovalRequest.approved_by approval_request)
                  reason)
           (store r approval_request m),
         true)
  end.

(** The state is well formed when every request id refers to an object;
    [init] is, and every operation keeps it so. *)
Definition wf (m : t) : Prop :=
  map_Forall (λ _ r, (r < length (heap m))%nat) (approval_requests m).

(** One call of a public method of the manager, returning or raising. *)
Inductive step (m : t) : t → Prop :=
| step_create now_expires now_created request_id operation_summary risk_level
    requester environment m' res :
    create_approval_request now_expires now_created m request_id
      operation_summary risk_level requester environment = Some (m', res) →
    step m m'
| step_create_raised now_expires now_created request_id operation_summary
    risk_level requester environment :
    create_approval_request now_expires now_created m request_id
      operation_summary risk_level requester environment = None →
    step m (create_approval_request_raised m risk_level environment)
| step_check now request_id :
    step m (check_approval_status now m request_id).1
| step_approve now_check now_approved request_id approver comments :
    step m (approve_request now_check now_approved m request_id approver comments).1
| step_reject request_id approver reason :
    step m (reject_request m request_id approver reason).1.

(** [o'] is [o] with, at most, another status. *)
Definition same_except_status (o o' : ApprovalRequest.t) : Prop :=
  ApprovalRequest.request_id o' = ApprovalRequest.request_id o
  ∧ ApprovalRequest.operation_summary o' = ApprovalRequest.operation_summary o
  ∧ ApprovalRequest.risk_level o' = ApprovalRequest.risk_level o
  ∧ ApprovalRequest.requester o' = ApprovalRequest.requester o
  ∧ ApprovalRequest.approvers o' = ApprovalRequest.approvers o
  ∧ ApprovalRequest.created_at o' = ApprovalRequest.created_at o
  ∧ ApprovalRequest.expires_at o' = ApprovalRequest.expires_at o
  ∧ ApprovalRequest.approved_by o' = ApprovalRequest.approved_by o
  ∧ ApprovalRequest.approved_at o' = ApprovalRequest.approved_at o
  ∧ ApprovalRequest.rejection_reason o' = ApprovalRequest.rejection_reason o.

(** What may happen to an object: it stays as it is, or its status goes
    from PENDING to a terminal state. *)
Definition lawful (o o' : ApprovalRequest.t) : Prop :=
  o' = o
  ∨ (ApprovalRequest.status o = PENDING ∧ terminal (ApprovalRequest.status o')).

(** The approvers the policy table of [__init__] prescribes: the eligible
    roles of the level, with cto and vp_engineering added exactly when the
    environment is prod and the level is HIGH or CRITICAL. *)
Definition table_roles (risk_level : string) : list string :=
  match initial_policies !! risk_level with
  | Some p => default [] (Policy.eligible_approvers p)
  | None => []
  end.

Definition expected_approvers (risk_level environment : string) : gset string :=
  list_to_set (table_roles risk_level)
  ∪ (if bool_decide (environment = "prod")
        && bool_decide (risk_level = "HIGH" ∨ risk_level = "CRITICAL")
     then {["cto"; "vp_engineering"]} else ∅).

(** [base] after [n] escalations: each appends cto and vp_engineering. *)
Fixpoint escalated (base : list string) (n : nat) : list string :=
  match n with
  | O => base
  | S n => (escalated base n ++ ["cto"; "vp_engineering"])%list
  end.

(** The shapes the policy table can take: the entries of [__init__], with
    the HIGH and CRITICAL approver lists escalated some number of times. *)
Definition policy_table_inv (ps : gmap string Policy.t) : Prop :=
  ps !! "LOW" = Some (Policy.mk false 0 0 None)
  ∧ ps !! "MEDIUM"
    = Some (Policy.mk true 1 24 (Some ["ops_lead"; "senior_engineer"]))
  ∧ (∃ n, ps !! "HIGH"
          = Some (Policy.mk true 2 12
                    (Some (escalated ["ops_manager"; "engineering_manager"] n))))
  ∧ (∃ n, ps !! "CRITICAL"
          = Some (Policy.mk true 2 4
                    (Some (escalated ["ops_director"; "cto"; "vp_engineering"] n))))
  ∧ (∀ k, k ∉ ["LOW"; "MEDIUM"; "HIGH"; "CRITICAL"] → ps !! k = None).

(** What holds of every request object the manager has made. *)
Definition object_inv (o : ApprovalRequest.t) : Prop :=
  ApprovalRequest.status o ≠ CANCELLED
  ∧ NoDup (ApprovalRequest.approvers o)
  ∧ (ApprovalRequest.status o = APPROVED →
     ∃ a t, ApprovalRequest.approved_by o = Some a
            ∧ ApprovalRequest.approved_at o = Some t
            ∧ a ∈ ApprovalRequest.approvers o)
  ∧ (ApprovalRequest.status o ≠ APPROVED →
     ApprovalRequest.approved_by o = None
     ∧ ApprovalRequest.approved_at o = None)
  ∧ (ApprovalRequest.status o = REJECTED →
     is_Some (ApprovalRequest.rejection_reason o))
  ∧ (ApprovalRequest.status o ≠ REJECTED →
     ApprovalRequest.rejection_reason o = None).

(** The states of a manager made by [__init__] and used through its public
    methods. *)
Definition reachable (m : t) : Prop := rtc step init m.

(** The list [_get_eligible_approvers] starts from, for a level with
    required approval, in a table of the invariant shape. *)
Definition base_roles (risk_level : string) : list string :=
  if bool_decide (risk_level = "MEDIUM") then ["ops_lead"; "senior_engineer"]
  else if bool_decide (risk_level = "CRITICAL")
       then ["ops_director"; "cto"; "vp_engineering"]
       else ["ops_manager"; "engineering_manager"].

(** The timeout, in hours, of the policy [create_approval_request] applies
    to a level with required approval. *)
Definition timeout_of (risk_level : string) : Z :=
  if bool_decide (risk_level = "MEDIUM") then 24
  else if bool_decide (risk_level = "CRITICAL") then 4 else 12.

(** What holds of every state of a manager in use: ids refer to objects,
    every object satisfies [object_inv], and the object stored under an id
    carries that id. *)
Definition state_inv (m : t) : Prop :=
  wf m
  ∧ (∀ r o, heap m !! r = Some o → object_inv o)
  ∧ (∀ request_id r o, get_request m request_id = Some (r, o) →
       ApprovalRequest.request_id o = request_id).

(** [self.approval_requests.values()]. A dictionary lists its values in the
    order its keys were first inserted; the state does not record that
    order, so it is the argument [order]. *)
Definition values (order : list string) (m : t) : list ApprovalRequest.t :=
  omap (λ request_id, snd <$> get_request m request_id) order.

(** The loop of [get_pending_approvals]. The three conditions are tested in
    order, so the clock is read only for a PENDING request the approver may
    decide; [clock k] is the reading number [k]. *)
Fixpoint pending_loop
    (clock : nat → Z) (k : nat) (approver : string)
    (requests : list ApprovalRequest.t) : list ApprovalRequest.t :=
  match requests with
  | [] => []
  | request :: rest =>
      if bool_decide (ApprovalRequest.status request = PENDING)
         && str_in approver (ApprovalRequest.approvers request)
      then
        if clock k <=? ApprovalRequest.expires_at request
        then request :: pending_loop clock (S k) approver rest
        else pending_loop clock (S k) approver rest
      else pending_loop clock k approver rest
  end.

(** [sorted(pending, key=lambda x: x.expires_at)]: a stable sort, so a
    request goes behind those sorted so far whose [expires_at] is not
    later than its own. *)
Fixpoint insert_by_expiry
    (x : ApprovalRequest.t) (l : list ApprovalRequest.t)
    : list ApprovalRequest.t :=
  match l with
  | [] => [x]
  | y :: l' =>
      if ApprovalRequest.expires_at x <? ApprovalRequest.expires_at y
      then x :: l
      else y :: insert_by_expiry x l'
  end.

Definition sorted_by_expiry (l : list ApprovalRequest.t)
    : list ApprovalRequest.t :=
  fold_left (λ acc x, insert_by_expiry x acc) l [].

Definition get_pending_approvals
    (clock : nat → Z) (order : list string) (m : t) (approver : string)
    : list ApprovalRequest.t :=
  sorted_by_expiry (pending_loop clock 0 approver (values order m)).

(** Ascending [expires_at]. *)
Definition expires_le (a b : ApprovalRequest.t) : Prop :=
  ApprovalRequest.expires_at a ≤ ApprovalRequest.expires_at b.

End ApprovalManager.

(** ** [src/parsingAndValidation/validator.py] *)

Module RequestValidator.
Import Py.

(** [not s.strip()]: every character of [s] is white space. [str.strip]
    removes the characters for which [str.isspace] holds: U+0009 to U+000D,
    U+001C to U+0020, U+0085, U+00A0, U+1680, U+2000 to U+200A, U+2028,
    U+2029, U+202F, U+205F and U+3000, here in their UTF-8 encoding. *)
Fixpoint strip_is_empty (s : string) : bool :=
  match s with
  | EmptyString => true
  | String c t =>
      let n := N_of_ascii c in
      if (((9 <=? n) && (n <=? 13)) || ((28 <=? n) && (n <=? 32)))%N
      then strip_is_empty t
      else
        match t with
        | String c2 t2 =>
            let n2 := N_of_ascii c2 in
            if ((n =? 194) && ((n2 =? 133) || (n2 =? 160)))%N
            then strip_is_empty t2
            else
              match t2 with
              | String c3 t3 =>
                  let n3 := N_of_ascii c3 in
                  if (((n =? 225) && (n2 =? 154) && (n3 =? 128))
                      || ((n =? 226) && (n2 =? 128)
                          && (((128 <=? n3) && (n3 <=? 138))
                              || (n3 =? 168) || (n3 =? 169) || (n3 =? 175)))
                      || ((n =? 226) && (n2 =? 129) && (n3 =? 159))
                      || ((n =? 227) && (n2 =? 128) && (n3 =? 128)))%N
                  then strip_is_empty t3
                  else false
              | EmptyString => false
              end
        | EmptyString => false
        end
  end.

(** [v in ['dev', 'staging', 'prod']] for any value [v]. *)
Definition is_known_environment (v : PyVal) : bool :=
  match v with
  | PyStr s => str_in s ["dev"; "staging"; "prod"]
  | _ => false
  end.

Definition validate_headers (headers : gmap string string)
    : bool * option string :=
  match headers !! "Authorization" with
  | None => (false, Some "Missing Authorization header")
  | Some auth_header =>
      if String.eqb auth_header ""
      then (false, Some "Missing Authorization header")
      else if negb (String.prefix "Bearer " auth_header)
      then (false, Some "Invalid Authorization format. Use 'Bearer <token>'")
      else
        match headers !! "X-User-ID" with
        | None => (false, Some "Missing X-User-ID header")
        | Some user_id =>
            if String.eqb user_id ""
            then (false, Some "Missing X-User-ID header")
            else (true, None)
        end
  end.

Definition validate_content_type (headers : gmap string string)
    : bool * option string :=
  let content_type := default "" (headers !! "Content-Type") in
  if negb (String.prefix "application/json" content_type)
  then (false, Some "Content-Type must be application/json")
  else (true, None).

Definition validate_request_data (request_data : gmap string PyVal)
    : bool * option string :=
  match request_data !! "query" with
  | Some (PyStr query) =>
      if String.eqb query ""
      then (false, Some "Missing or invalid 'query' field")
      else if strip_is_empty query
      then (false, Some "Query cannot be empty")
      else
        match request_data !! "environment" with
        | Some environment =>
            if truthy environment && negb (is_known_environment environment)
            then (false, Some "Environment must be one of: dev, staging, prod")
            else (true, None)
        | None => (true, None)
        end
  | _ => (false, Some "Missing or invalid 'query' field")
  end.

Definition validate_request
    (headers : gmap string string) (request_data : gmap string PyVal)
    : bool * option string :=
  let '(valid, error) := validate_headers headers in
  if negb valid then (false, error)
  else
    let '(valid, error) := validate_content_type headers in
    if negb valid then (false, error)
    else
      let '(valid, error) := validate_request_data request_data in
      if negb valid then (false, error)
      else (true, None).

End RequestValidator.

(** ** Sample inputs *)

Module Samples.
Import Py Models.

Definition sample_request : OperationalRequest :=
  {| request_id := "REQ-1"; user_id := "alice"; query := "cancel case CASE-1";
     context := ∅; environment := Some "qa"; timestamp := 0 |}.

Definition sample_classification : ClassificationResult :=
  {| use_case := OPERATIONAL_ASK; task_id := Some CANCEL_ORDER;
     confidence := 0.9%float; extracted_entities := ∅;
     cls_environment := None; service := None |}.

Definition night_cancel_request : OperationalRequest :=
  {| request_id := "REQ-7"; user_id := "ops_bob"; query := "cancel case CASE-9";
     context := ∅; environment := Some "prod"; timestamp := 0 |}.

Definition cancel_classification : ClassificationResult :=
  {| use_case := OPERATIONAL_ASK; task_id := Some CANCEL_ORDER;
     confidence := 0.9%float; extracted_entities := ∅;
     cls_environment := Some "prod"; service := None |}.

Definition small_plan : PlanGenerator.OperationalPlan :=
  {| PlanGenerator.summary := "Cancel the case";
     PlanGenerator.risk_level := "LOW";
     PlanGenerator.requires_approval := true;
     PlanGenerator.estimated_duration := "Unknown";
     PlanGenerator.pre_checks := [];
     PlanGenerator.procedure := [];
     PlanGenerator.post_checks := [];
     PlanGenerator.rollback := [PyStr "restore the case"];
     PlanGenerator.citations := [] |}.

(** A manager fresh from [__init__] on which one MEDIUM request was
    created at time 0; the request expires 24 hours later. *)
Definition medium_pending : ApprovalManager.t :=
  default ApprovalManager.init
    (fst <$> ApprovalManager.create_approval_request 0 0 ApprovalManager.init
               "REQ-1" "Cancel case CASE-1" "MEDIUM" "alice" "dev").

Definition medium_request : ApprovalManager.ApprovalRequest.t :=
  ApprovalManager.ApprovalRequest.mk "REQ-1" "Cancel case CASE-1" "MEDIUM"
    "alice" ["ops_lead"; "senior_engineer"] ApprovalManager.PENDING
    0 86400000000 None None None.

(** The same manager after ops_lead approved the request at time 1. *)
Definition medium_approved : ApprovalManager.t :=
  (ApprovalManager.approve_request 1 2 medium_pending "REQ-1" "ops_lead" "ok").1.

(** A manager on which a HIGH request for prod was created. *)
Definition after_prod_high : ApprovalManager.t :=
  default ApprovalManager.init
    (fst <$> ApprovalManager.create_approval_request 0 0 ApprovalManager.init
               "REQ-1" "Cancel case CASE-1" "HIGH" "alice" "prod").

Definition dev_request : OperationalRequest :=
  {| request_id := "REQ-2"; user_id := "carol"; query := "cancel case CASE-2";
     context := ∅; environment := Some "dev"; timestamp := 0 |}.

Definition typo_plan : PlanGenerator.OperationalPlan :=
  {| PlanGenerator.summary := "Cancel the case";
     PlanGenerator.risk_level := "medium";
     PlanGenerator.requires_approval := true;
     PlanGenerator.estimated_duration := "Unknown";
     PlanGenerator.pre_checks := [];
     PlanGenerator.procedure := [];
     PlanGenerator.post_checks := [];
     PlanGenerator.rollback := [PyStr "restore the case"];
     PlanGenerator.citations := [] |}.

Definition good_headers : gmap string string :=
  <["Authorization" := "Bearer abc"]>
    (<["X-User-ID" := "ops_bob"]>
       (<["Content-Type" := "application/json; charset=utf-8"]> ∅)).

Definition good_data : gmap string Py.PyVal :=
  <["query" := Py.PyStr "cancel case CASE-1"]>
    (<["environment" := Py.PyStr ""]> ∅).

End Samples.

(** * Properties *)

(** ** The order of binary64 numbers

    [<=?] and [<?] on primitive floats are specified by [SFcompare] on
    their decoded form; the facts below are what the threshold tests of
    the risk engine need. *)

Module FloatOrder.





Lemma leb_not_nan_l x y : PrimFloat.leb x y = true → is_nan x = false.
Proof.
  rewrite FloatAxioms.leb_spec. unfold is_nan. rewrite FloatAxioms.eqb_spec.
  unfold SFleb, SFeqb.
  destruct (Prim2SF x) as [s|s| |s m e], (Prim2SF y); simpl; try done.
  all: try by destruct s.
  all: change (PosDef.Pos.compare_cont Eq ?x ?y) with (Pos.compare x y).
  all: intros _; rewrite Z.compare_refl, Pos.compare_refl; by destruct s.
Qed.



End FloatOrder.

(** ** The risk engine *)

Module RiskEngineFacts.
Import Py Models RiskEngine Samples.

(** Every score in [[0,1]] is a number. *)
Lemma unit_interval_not_nan (s : float) :
  PrimFloat.leb 0 s = true → PrimFloat.leb s 1 = true → is_nan s = false.
Proof. intros _ H. by apply FloatOrder.leb_not_nan_l in H. Qed.





(** The enumeration has no member CANCEL_CASE, CHANGE_CASE_STATUS or
    RECONCILE_CASE_DATA. *)
Lemma TaskId_attr_Some (name : string) (t : TaskId) :
  TaskId_attr name = Some t ↔ name = TaskId_value t.
Proof.
  unfold TaskId_attr.
  destruct (String.eqb_spec name "CANCEL_ORDER") as [->|H1].
  { split; [by intros [= <-]|]. by destruct t. }
  destruct (String.eqb_spec name "CHANGE_ORDER_STATUS") as [->|H2].
  { split; [by intros [= <-]|]. by destruct t. }
  split; [done|]. by destruct t.
Qed.

(** C8. No assessment is ever produced. [RiskEngine()] raises: [__init__]
    evaluates [TaskId.CANCEL_CASE], which [TaskId] does not declare. And on
    an engine object, however it was obtained, [assess_risk] raises for
    every request, classification and hour, however the interpreter rounds
    its sums: [_build_constraints] evaluates [TaskId.CANCEL_CASE] on every
    path. *)
Theorem assess_risk_raises
    (sum : list float → float) (self : Engine.t) (hour : Z)
    (request : OperationalRequest) (classification : ClassificationResult) :
  init = None
  ∧ assess_risk sum self hour request classification = None.
Proof.
  split; [reflexivity|].
  unfold assess_risk.
  destruct (_requires_approval _ _ _); reflexivity.
Qed.

(** C6. [_requires_approval] returns true when the environment is prod and
    the level is MEDIUM, HIGH or CRITICAL, and when the level is HIGH or
    CRITICAL; in every other case it raises, because its third test
    evaluates [TaskId.CANCEL_CASE]: it never returns false. So it raises
    for a LOW cancellation in dev, where the flag should be false, and for
    one in staging, where it should be true. *)
Theorem requires_approval_true_or_raises
    (risk_level : RiskLevel) (environment : option string)
    (task_id : option TaskId) :
  _requires_approval risk_level environment task_id
    = (if (bool_decide (environment = Some "prod")
           && bool_decide (risk_level ∈ [MEDIUM; HIGH; CRITICAL]))
          || bool_decide (risk_level ∈ [HIGH; CRITICAL])
       then Some true else None)
  ∧ _requires_approval LOW (Some "dev") (Some CANCEL_ORDER) = None
  ∧ _requires_approval LOW (Some "staging") (Some CANCEL_ORDER) = None.
Proof.
  split; [|split; reflexivity].
  unfold _requires_approval.
  destruct (bool_decide (environment = Some "prod")
            && bool_decide (risk_level ∈ [MEDIUM; HIGH; CRITICAL])); [done|].
  by destruct (bool_decide (risk_level ∈ [HIGH; CRITICAL])).
Qed.

End RiskEngineFacts.

(** ** The policy validator *)

Module PolicyValidatorFacts.
Import Py Models PolicyValidator Samples.

Lemma no_blocking_false (vs : list PolicyViolation.t) :
  no_blocking vs = false ↔ ∃ v, v ∈ vs ∧ blocking v.
Proof.
  unfold no_blocking. rewrite bool_decide_eq_false, length_zero_iff_nil.
  induction vs as [|v vs IH].
  - split; [done|]. intros (v & Hv & _). by apply elem_of_nil in Hv.
  - destruct (decide (PolicyViolation.severity v ∈ ["ERROR"; "CRITICAL"]))
      as [Hb|Hb].
    + rewrite filter_cons_True by done. split; [|done].
      intros _. exists v. split; [left|]. unfold blocking. set_solver.
    + rewrite filter_cons_False by done. rewrite IH. split.
      * intros (w & Hw & Hbw). exists w. split; [by right|done].
      * intros (w & Hw & Hbw). apply elem_of_cons in Hw as [->|Hw].
        -- exfalso. apply Hb. unfold blocking in Hbw. set_solver.
        -- by exists w.
Qed.

Lemma no_blocking_warnings (vs : list PolicyViolation.t) :
  Forall (λ v, PolicyViolation.severity v = "WARNING") vs →
  no_blocking vs = true.
Proof.
  intros Hw. destruct (no_blocking vs) eqn:E; [done|].
  apply no_blocking_false in E as (v & Hv & Hb).
  rewrite Forall_forall in Hw. specialize (Hw v Hv).
  unfold blocking in Hb. rewrite Hw in Hb. by destruct Hb.
Qed.

(** C7. In the result of [validate_request] and in the result of
    [validate_plan], [allowed] is false exactly when some violation has
    severity ERROR or CRITICAL; violations that are all of severity WARNING
    leave [allowed] true, whatever the [warnings] list holds. *)
Theorem allowed_iff_no_blocking_violation
    (hour weekday : Z) (request : OperationalRequest)
    (classification : ClassificationResult)
    (risk_assessment : option RiskEngine.RiskAssessment.t)
    (plan : PlanGenerator.OperationalPlan) :
  let r := validate_request hour weekday request classification risk_assessment in
  let p := validate_plan plan request in
  (PolicyValidationResult.allowed r = false ↔
     ∃ v, v ∈ PolicyValidationResult.violations r ∧ blocking v)
  ∧ (PolicyValidationResult.allowed p = false ↔
       ∃ v, v ∈ PolicyValidationResult.violations p ∧ blocking v)
  ∧ (Forall (λ v, PolicyViolation.severity v = "WARNING")
            (PolicyValidationResult.violations r) →
     PolicyValidationResult.allowed r = true)
  ∧ (Forall (λ v, PolicyViolation.severity v = "WARNING")
            (PolicyValidationResult.violations p) →
     PolicyValidationResult.allowed p = true).
Proof.
  simpl. repeat split;
    try (by apply no_blocking_false); by apply no_blocking_warnings.
Qed.

Lemma allowed_iff_no_blocking_violation_witness :
  let r := validate_request 3 6 night_cancel_request cancel_classification None in
  map PolicyViolation.severity (PolicyValidationResult.violations r) = ["WARNING"]
  ∧ length (PolicyValidationResult.warnings r) = 2%nat
  ∧ PolicyValidationResult.allowed r = true
  ∧ PolicyValidationResult.allowed (validate_plan small_plan night_cancel_request)
    = true.
Proof.
  pose proof (allowed_iff_no_blocking_violation 3 6 night_cancel_request
                cancel_classification None small_plan) as (_ & _ & Hr & Hp).
  split; [reflexivity|]. split; [reflexivity|]. split.
  - apply Hr. vm_compute. repeat constructor.
  - apply Hp. vm_compute. constructor.
Defined.

End PolicyValidatorFacts.

(** ** The approval manager *)

Module ApprovalManagerFacts.
Import Py ApprovalManager Samples.

Lemma str_in_spec (x : string) (xs : list string) : str_in x xs = true ↔ x ∈ xs.
Proof. unfold str_in. by rewrite bool_decide_eq_true. Qed.

Lemma elem_of_list_set (x : string) (xs : list string) : x ∈ list_set xs ↔ x ∈ xs.
Proof. unfold list_set. by rewrite elem_of_elements, elem_of_list_to_set. Qed.

Lemma list_set_NoDup (xs : list string) : NoDup (list_set xs).
Proof. unfold list_set. apply NoDup_elements. Qed.

Lemma list_to_set_list_set (xs : list string) :
  (list_to_set (list_set xs) : gset string) = list_to_set xs.
Proof. unfold list_set. apply list_to_set_elements_L. Qed.

Lemma get_request_Some (m : t) (request_id : string) (r : ref)
    (o : ApprovalRequest.t) :
  get_request m request_id = Some (r, o) ↔
  approval_requests m !! request_id = Some r ∧ heap m !! r = Some o.
Proof.
  unfold get_request. split.
  - destruct (approval_requests m !! request_id) as [r'|]; simpl; [|done].
    destruct (heap m !! r') as [o'|] eqn:E; simpl; [|done].
    by intros [= <- <-].
  - intros [-> Ho]. simpl. by rewrite Ho.
Qed.

Lemma get_request_None (m : t) (request_id : string) :
  approval_requests m !! request_id = None → get_request m request_id = None.
Proof. unfold get_request. by intros ->. Qed.

(** Reading back an object after an assignment to its attributes. *)
Lemma get_request_store (m : t) (request_id : string) (r : ref)
    (o o' : ApprovalRequest.t) :
  get_request m request_id = Some (r, o) →
  get_request (store r o' m) request_id = Some (r, o').
Proof.
  rewrite !get_request_Some. intros [Hr Ho]. split; [done|].
  simpl. apply list_lookup_insert_eq. by eapply lookup_lt_Some.
Qed.

Lemma get_request_print (m : t) (n : Notification) (request_id : string) :
  get_request (print n m) request_id = get_request m request_id.
Proof. done. Qed.

(** C4. [approve_request] returns false and changes nothing when the
    request id is not in the store, when the record is not PENDING, and when
    the approver is not among the record's approvers (a PENDING record then
    stays PENDING). For a PENDING record and an eligible approver, it
    returns false and sets the status to EXPIRED when the clock is past
    [expires_at]; otherwise it returns true and the record becomes APPROVED
    with [approved_by] and [approved_at] filled in. *)
Theorem approve_request_cases
    (now_check now_approved : Z) (m : t) (request_id approver comments : string) :
  (approval_requests m !! request_id = None →
   approve_request now_check now_approved m request_id approver comments
   = (m, false))
  ∧ (∀ r o, get_request m request_id = Some (r, o) →
       ApprovalRequest.status o ≠ PENDING →
       approve_request now_check now_approved m request_id approver comments
       = (m, false))
  ∧ (∀ r o, get_request m request_id = Some (r, o) →
       approver ∉ ApprovalRequest.approvers o →
       approve_request now_check now_approved m request_id approver comments
       = (m, false))
  ∧ (∀ r o, get_request m request_id = Some (r, o) →
       ApprovalRequest.status o = PENDING →
       approver ∈ ApprovalRequest.approvers o →
       ApprovalRequest.expires_at o < now_check →
       ∃ m' o',
         approve_request now_check now_approved m request_id approver comments
         = (m', false)
         ∧ get_request m' request_id = Some (r, o')
         ∧ ApprovalRequest.status o' = EXPIRED
         ∧ same_except_status o o'
         ∧ m' = store r o' m)
  ∧ (∀ r o, get_request m request_id = Some (r, o) →
       ApprovalRequest.status o = PENDING →
       approver ∈ ApprovalRequest.approvers o →
       now_check ≤ ApprovalRequest.expires_at o →
       ∃ m' o',
         approve_request now_check now_approved m request_id approver comments
         = (m', true)
         ∧ get_request m' request_id = Some (r, o')
         ∧ o' = ApprovalRequest.mk
                  (ApprovalRequest.request_id o)
                  (ApprovalRequest.operation_summary o)
                  (ApprovalRequest.risk_level o)
                  (ApprovalRequest.requester o)
                  (ApprovalRequest.approvers o)
                  APPROVED
                  (ApprovalRequest.created_at o)
                  (ApprovalRequest.expires_at o)
                  (Some approver) (Some now_approved)
                  (ApprovalRequest.rejection_reason o)
         ∧ approval_policies m' = approval_policies m
         ∧ approval_requests m' = approval_requests m
         ∧ heap m' = <[r := o']> (heap m)).
Proof.
  unfold approve_request. repeat split.
  - intros H. by rewrite (get_request_None _ _ H).
  - intros r o -> Hs. by rewrite bool_decide_eq_false_2.
  - intros r o -> Hin.
    destruct (bool_decide (ApprovalRequest.status o = PENDING)); simpl; [|done].
    destruct (str_in approver (ApprovalRequest.approvers o)) eqn:E; [|done].
    by apply str_in_spec in E.
  - intros r o Hg Hs Hin Hexp. rewrite Hg.
    rewrite bool_decide_eq_true_2 by done. simpl.
    apply str_in_spec in Hin. rewrite Hin. simpl.
    apply Z.ltb_lt in Hexp. rewrite Hexp.
    eexists _, _. split; [done|].
    split; [by eapply get_request_store|]. by repeat split.
  - intros r o Hg Hs Hin Hexp. rewrite Hg.
    rewrite bool_decide_eq_true_2 by done. simpl.
    apply str_in_spec in Hin. rewrite Hin. simpl.
    apply Z.ltb_ge in Hexp. rewrite Hexp.
    eexists _, _. split; [done|].
    split; [rewrite get_request_print; by eapply get_request_store|].
    by repeat split.
Qed.

Lemma terminal_not_pending (s : ApprovalStatus) : terminal s ↔ s ≠ PENDING.
Proof. unfold terminal. destruct s; naive_solver. Qed.

(** What an assignment through [r0] does to the object behind [r]. *)
Lemma store_lookup (m : t) (r0 r : ref) (o0 o0' o : ApprovalRequest.t) :
  heap m !! r0 = Some o0 → heap m !! r = Some o →
  ∃ o', heap (store r0 o0' m) !! r = Some o'
        ∧ (o' = o ∨ (r = r0 ∧ o = o0 ∧ o' = o0')).
Proof.
  intros H0 Hr. simpl. destruct (decide (r = r0)) as [->|Hne].
  - exists o0'. split; [|right; split; [done|split; congruence]].
    apply list_lookup_insert_eq. by eapply lookup_lt_Some.
  - exists o. split; [|by left]. by rewrite list_lookup_insert_ne.
Qed.

(** [_get_eligible_approvers] touches nothing but the policy table. *)
Lemma get_eligible_approvers_frame (m m' : t) (risk_level environment : string)
    (l : list string) :
  _get_eligible_approvers m risk_level environment = Some (m', l) →
  heap m' = heap m ∧ approval_requests m' = approval_requests m
  ∧ printed m' = printed m.
Proof.
  unfold _get_eligible_approvers.
  destruct (get_policy (approval_policies m) risk_level) as [[key policy]|];
    simpl; [|done].
  generalize (bool_decide (environment = "prod")
              && str_in risk_level ["HIGH"; "CRITICAL"]).
  intros ext H.
  assert (∃ ps, m' = set_policies ps m) as [ps ->]; [|done].
  destruct (Policy.eligible_approvers policy) as [base|], ext;
    apply (f_equal (fmap fst)) in H; simpl in H; apply (inj Some) in H;
    subst m'; first [ by eexists | by exists (approval_policies m); destruct m ].
Qed.

Lemma create_heap (now_expires now_created : Z) (m m' : t)
    (request_id operation_summary risk_level requester environment : string)
    (res : option ref) :
  create_approval_request now_expires now_created m request_id
    operation_summary risk_level requester environment = Some (m', res) →
  (res = None ∧ m' = m)
  ∨ (∃ o, res = Some (length (heap m)) ∧ heap m' = (heap m ++ [o])%list
          ∧ approval_requests m'
            = <[request_id := length (heap m)]> (approval_requests m)
          ∧ ApprovalRequest.status o = PENDING).
Proof.
  unfold create_approval_request.
  destruct (get_policy (approval_policies m) risk_level) as [[key policy]|];
    simpl; [|done].
  destruct (Policy.required policy); simpl; [|intros [= <- <-]; by left].
  destruct (_get_eligible_approvers m risk_level environment)
    as [[m1 l]|] eqn:E; simpl; [|done].
  apply get_eligible_approvers_frame in E as (Hh & Hr & _).
  destruct (add_hours now_expires (Policy.timeout_hours policy)) as [e|];
    simpl; [|done].
  intros [= <- <-]. right. eexists. simpl. rewrite Hh, Hr. by repeat split.
Qed.

(** A call of [create_approval_request] that raises leaves the requests
    and what was printed as they were. *)
Lemma create_raised_frame (m : t) (risk_level environment : string) :
  heap (create_approval_request_raised m risk_level environment) = heap m
  ∧ approval_requests (create_approval_request_raised m risk_level environment)
    = approval_requests m
  ∧ printed (create_approval_request_raised m risk_level environment)
    = printed m.
Proof.
  unfold create_approval_request_raised.
  destruct (_get_eligible_approvers m risk_level environment) as [[m1 l]|] eqn:E;
    [|done].
  by apply get_eligible_approvers_frame in E.
Qed.

(** [add_hours] returns the sum, or raises. *)
Lemma add_hours_Some (now h e : Z) :
  add_hours now h = Some e → e = now + timedelta_hours h.
Proof. unfold add_hours. case_match; [|done]. by intros [= <-]. Qed.

Lemma add_hours_in_range (now h : Z) :
  timedelta_min ≤ timedelta_hours h ≤ timedelta_max →
  datetime_min ≤ now + timedelta_hours h ≤ datetime_max →
  add_hours now h = Some (now + timedelta_hours h).
Proof.
  intros [H1 H2] [H3 H4]. unfold add_hours.
  apply Z.leb_le in H1, H2, H3, H4. by rewrite H1, H2, H3, H4.
Qed.

Lemma add_hours_out_of_range (now h : Z) :
  ¬ (datetime_min ≤ now + timedelta_hours h ≤ datetime_max) →
  add_hours now h = None.
Proof.
  intros Hn. unfold add_hours. case_match eqn:E; [|done].
  apply andb_prop in E as [E H4]. apply andb_prop in E as [E H3].
  apply Z.leb_le in H3, H4. lia.
Qed.

Lemma step_lawful (m m' : t) (r : ref) (o : ApprovalRequest.t) :
  step m m' → heap m !! r = Some o →
  ∃ o', heap m' !! r = Some o' ∧ lawful o o'.
Proof.
  intros Hstep Hr. destruct Hstep as
    [ ne nc id s rl rq env m' res Hc | ne nc id s rl rq env Hc | now id
    | ncheck nappr id a c | id a c ].
  - apply create_heap in Hc as [[_ ->]|(o1 & _ & -> & _)].
    + exists o. split; [done|by left].
    + exists o. split; [|by left]. by apply lookup_app_l_Some.
  - exists o. split; [|by left].
    by rewrite (proj1 (create_raised_frame m rl env)).
  - unfold check_approval_status.
    destruct (get_request m id) as [[r0 o0]|] eqn:G;
      [|exists o; split; [done|by left]].
    apply get_request_Some in G as [_ G].
    case_match eqn:C; [|exists o; split; [done|by left]].
    apply andb_prop in C as [_ C%bool_decide_eq_true].
    destruct (store_lookup m r0 r o0 (ApprovalRequest.set_status EXPIRED o0) o G Hr)
      as (o' & Hl & [->|(-> & -> & ->)]).
    + exists o. split; [done|by left].
    + eexists. split; [done|]. right. split; [done|]. unfold terminal. simpl. auto.
  - unfold approve_request.
    destruct (get_request m id) as [[r0 o0]|] eqn:G;
      [|exists o; split; [done|by left]].
    apply get_request_Some in G as [_ G].
    case_bool_decide as Hs; simpl; [|exists o; split; [done|by left]].
    destruct (str_in a (ApprovalRequest.approvers o0)); simpl;
      [|exists o; split; [done|by left]].
    destruct (ApprovalRequest.expires_at o0 <? ncheck); simpl.
    + destruct (store_lookup m r0 r o0 (ApprovalRequest.set_status EXPIRED o0) o G Hr)
        as (o' & Hl & [->|(-> & -> & ->)]).
      * exists o. split; [done|by left].
      * eexists. split; [done|]. right. split; [done|]. unfold terminal. simpl. auto.
    + match goal with
      | |- context [<[r0 := ?new]> (heap m)] =>
          destruct (store_lookup m r0 r o0 new o G Hr)
            as (o' & Hl & [->|(-> & -> & ->)])
      end.
      * exists o. split; [done|by left].
      * eexists. split; [done|]. right. split; [done|]. unfold terminal. simpl. auto.
  - unfold reject_request.
    destruct (get_request m id) as [[r0 o0]|] eqn:G;
      [|exists o; split; [done|by left]].
    apply get_request_Some in G as [_ G].
    case_bool_decide as Hs; simpl; [|exists o; split; [done|by left]].
    destruct (str_in a (ApprovalRequest.approvers o0)); simpl;
      [|exists o; split; [done|by left]].
    match goal with
    | |- context [<[r0 := ?new]> (heap m)] =>
        destruct (store_lookup m r0 r o0 new o G Hr)
          as (o' & Hl & [->|(-> & -> & ->)])
    end.
    + exists o. split; [done|by left].
    + eexists. split; [done|]. right. split; [done|]. unfold terminal. simpl. auto.
Qed.

Lemma lawful_trans (o o' o'' : ApprovalRequest.t) :
  lawful o o' → lawful o' o'' → lawful o o''.
Proof.
  intros [->|[Hp Ht]] [->|[Hp' Ht']]; try (by left); by right.
Qed.

Lemma steps_lawful (m m' : t) (r : ref) (o : ApprovalRequest.t) :
  rtc step m m' → heap m !! r = Some o →
  ∃ o', heap m' !! r = Some o' ∧ lawful o o'.
Proof.
  intros Hsteps. revert o. induction Hsteps as [m|m m1 m2 Hs _ IH]; intros o Hr.
  - exists o. split; [done|by left].
  - destruct (step_lawful _ _ _ _ Hs Hr) as (o1 & H1 & L1).
    destruct (IH _ H1) as (o2 & H2 & L2).
    exists o2. split; [done|]. by eapply lawful_trans.
Qed.

(** The calls that can make a request id refer to another object: only a
    [create_approval_request] under that id that returns a request. *)
Lemma step_rebinds (m m' : t) (request_id : string) :
  step m m' →
  approval_requests m' !! request_id ≠ approval_requests m !! request_id →
  ∃ now_expires now_created operation_summary risk_level requester environment r,
    create_approval_request now_expires now_created m request_id
      operation_summary risk_level requester environment = Some (m', Some r).
Proof.
  intros Hstep Hne. destruct Hstep as
    [ ne nc id s rl rq env m' res Hc | ne nc id s rl rq env Hc | now id
    | ncheck nappr id a c | id a c ].
  - pose proof Hc as Hc'.
    apply create_heap in Hc' as [[_ ->]|(o1 & -> & _ & Hr & _)]; [done|].
    destruct (decide (id = request_id)) as [->|Hid].
    + by exists ne, nc, s, rl, rq, env, (length (heap m)).
    + exfalso. apply Hne. rewrite Hr. by apply lookup_insert_ne.
  - exfalso. apply Hne.
    by rewrite (proj1 (proj2 (create_raised_frame m rl env))).
  - exfalso. apply Hne. unfold check_approval_status.
    destruct (get_request m id) as [[r0 o0]|]; [|done]. by case_match.
  - exfalso. apply Hne. unfold approve_request.
    destruct (get_request m id) as [[r0 o0]|]; [|done]. by repeat case_match.
  - exfalso. apply Hne. unfold reject_request.
    destruct (get_request m id) as [[r0 o0]|]; [|done]. by repeat case_match.
Qed.

(** On a record that is not PENDING the three operations change nothing. *)
Lemma not_pending_noop
    (m : t) (request_id : string) (r : ref) (o : ApprovalRequest.t) :
  get_request m request_id = Some (r, o) →
  ApprovalRequest.status o ≠ PENDING →
  (∀ now_check now_approved approver comments,
     approve_request now_check now_approved m request_id approver comments
     = (m, false))
  ∧ (∀ approver reason,
       reject_request m request_id approver reason = (m, false))
  ∧ (∀ now, check_approval_status now m request_id = (m, Some r)).
Proof.
  intros Hg Hs. repeat split; intros.
  - unfold approve_request. rewrite Hg. by rewrite bool_decide_eq_false_2.
  - unfold reject_request. rewrite Hg. by rewrite bool_decide_eq_false_2.
  - unfold check_approval_status. rewrite Hg.
    by rewrite (bool_decide_eq_false_2 _ Hs), andb_false_r.
Qed.

(** A record that is not PENDING stays as it is through every sequence of
    calls, and the calls on its id change nothing while the id refers to
    it. *)
Lemma not_pending_later
    (m m' : t) (request_id : string) (r : ref) (o : ApprovalRequest.t) :
  heap m !! r = Some o →
  ApprovalRequest.status o ≠ PENDING →
  rtc step m m' →
  heap m' !! r = Some o
  ∧ (approval_requests m' !! request_id = Some r →
     (∀ now_check now_approved approver comments,
        approve_request now_check now_approved m' request_id approver comments
        = (m', false))
     ∧ (∀ approver reason,
          reject_request m' request_id approver reason = (m', false))
     ∧ (∀ now, check_approval_status now m' request_id = (m', Some r))).
Proof.
  intros Ho Hnp Hsteps.
  assert (heap m' !! r = Some o) as Ho'.
  { destruct (steps_lawful _ _ _ _ Hsteps Ho) as (o' & Ho' & [->|[Hp _]]);
      [done|]. by rewrite Hp in Hnp. }
  split; [exact Ho'|]. intros Hr.
  apply (not_pending_noop m' request_id r o); [|done].
  by apply get_request_Some.
Qed.

(** C3, as stated, fails: REQ-1 of [medium_approved] is APPROVED, and after
    [create_approval_request] is called again with that id, a subsequent
    [approve_request] on REQ-1 returns true and fills in the fields of the
    record the id now refers to. *)
Lemma recreated_id_is_decided_again :
  ApprovalRequest.status <$> (snd <$> get_request medium_approved "REQ-1")
  = Some APPROVED
  ∧ ∃ m1 r m2,
      create_approval_request 9 9 medium_approved "REQ-1" "Cancel again"
        "MEDIUM" "alice" "dev" = Some (m1, Some r)
      ∧ approve_request 10 11 m1 "REQ-1" "senior_engineer" "ok" = (m2, true)
      ∧ ApprovalRequest.approved_by <$> (snd <$> get_request m2 "REQ-1")
        = Some (Some "senior_engineer")
      ∧ ApprovalRequest.approved_by <$> (snd <$> get_request medium_approved "REQ-1")
        = Some (Some "ops_lead").
Proof.
  split; [by vm_compute|].
  eexists _, _, _. split; [by vm_compute|]. split; [by vm_compute|].
  split; by vm_compute.
Qed.

(** C3, amended. Terminal states are absorbing for a record. Once a record
    is APPROVED, REJECTED, EXPIRED or CANCELLED, [approve_request] and
    [reject_request] on its request id return false and leave the whole
    state as it is, and [check_approval_status] changes nothing either; no
    later sequence of calls on the manager changes the record; and in every
    later state the three calls still change nothing as long as the request
    id refers to that record. The id comes to refer to another object only
    through a [create_approval_request] under the same id that returns a
    request. Over any sequence of calls, the status of any request object
    either stays or goes from PENDING to a terminal state. *)
Theorem terminal_states_absorbing
    (m : t) (request_id : string) (r : ref) (o : ApprovalRequest.t) :
  get_request m request_id = Some (r, o) →
  terminal (ApprovalRequest.status o) →
  (∀ now_check now_approved approver comments,
     approve_request now_check now_approved m request_id approver comments
     = (m, false))
  ∧ (∀ approver reason,
       reject_request m request_id approver reason = (m, false))
  ∧ (∀ now, check_approval_status now m request_id = (m, Some r))
  ∧ (∀ m', rtc step m m' →
       heap m' !! r = Some o
       ∧ (approval_requests m' !! request_id = Some r →
          (∀ now_check now_approved approver comments,
             approve_request now_check now_approved m' request_id approver
               comments = (m', false))
          ∧ (∀ approver reason,
               reject_request m' request_id approver reason = (m', false))
          ∧ (∀ now, check_approval_status now m' request_id = (m', Some r))))
  ∧ (∀ m1 m2, step m1 m2 →
       approval_requests m2 !! request_id ≠ approval_requests m1 !! request_id →
       ∃ now_expires now_created operation_summary risk_level requester
         environment r',
         create_approval_request now_expires now_created m1 request_id
           operation_summary risk_level requester environment
         = Some (m2, Some r'))
  ∧ (∀ m0 m1 r0 o0, rtc step m0 m1 → heap m0 !! r0 = Some o0 →
       ∃ o1, heap m1 !! r0 = Some o1
             ∧ (ApprovalRequest.status o1 = ApprovalRequest.status o0
                ∨ (ApprovalRequest.status o0 = PENDING
                   ∧ terminal (ApprovalRequest.status o1)))).
Proof.
  intros Hg Ht. pose proof Ht as Hnp. apply terminal_not_pending in Hnp.
  destruct (not_pending_noop m request_id r o Hg Hnp) as (Ha & Hr & Hc).
  split; [exact Ha|]. split; [exact Hr|]. split; [exact Hc|].
  split; [|split].
  - intros m' Hsteps. apply get_request_Some in Hg as [_ Ho].
    by apply (not_pending_later m m' request_id r o).
  - intros m1 m2. apply step_rebinds.
  - intros m0 m1 r0 o0 Hsteps Ho0.
    destruct (steps_lawful _ _ _ _ Hsteps Ho0) as (o1 & Ho1 & [E|L]);
      exists o1; split; auto. left. by rewrite E.
Qed.

Lemma terminal_states_absorbing_witness :
  terminal APPROVED
  ∧ reject_request medium_approved "REQ-1" "senior_engineer" "too late"
    = (medium_approved, false)
  ∧ approve_request 5 6 medium_approved "REQ-1" "senior_engineer" "again"
    = (medium_approved, false)
  ∧ check_approval_status 86400000001 medium_approved "REQ-1"
    = (medium_approved, Some 0%nat)
  ∧ (∀ m', rtc step medium_approved m' →
       approval_requests m' !! "REQ-1" = Some 0%nat →
       ∀ approver reason, reject_request m' "REQ-1" approver reason = (m', false)).
Proof.
  assert (terminal APPROVED) as Ht by (by left).
  split; [exact Ht|].
  destruct (terminal_states_absorbing medium_approved "REQ-1" 0%nat
              (ApprovalRequest.mk "REQ-1" "Cancel case CASE-1" "MEDIUM" "alice"
                 ["ops_lead"; "senior_engineer"] APPROVED 0 86400000000
                 (Some "ops_lead") (Some 2) None))
    as (Ha & Hr & Hc & Hlater & _); [by vm_compute | exact Ht |].
  split; [apply Hr|]. split; [apply Ha|]. split; [apply Hc|].
  intros m' Hsteps Hid. apply (Hlater m' Hsteps). exact Hid.
Defined.

(** *** Well-formed states *)

Lemma wf_init : wf init.
Proof. apply map_Forall_empty. Qed.

Lemma wf_get_request (m : t) (request_id : string) :
  wf m → (get_request m request_id = None ↔
          approval_requests m !! request_id = None).
Proof.
  intros Hwf. split; [|apply get_request_None].
  intros Hnone.
  destruct (approval_requests m !! request_id) as [r|] eqn:E; [|done].
  pose proof (Hwf _ _ E) as Hlt. apply lookup_lt_is_Some in Hlt as [o Ho].
  by rewrite (proj2 (get_request_Some m request_id r o) (conj E Ho)) in Hnone.
Qed.

Lemma step_wf (m m' : t) : step m m' → wf m → wf m'.
Proof.
  assert (∀ r o, wf m → wf (store r o m)) as Hstore.
  { intros r o Hwf id r' Hr'. simpl. rewrite length_insert. by apply Hwf in Hr'. }
  intros Hstep Hwf. destruct Hstep as
    [ ne nc id s rl rq env m' res Hc | ne nc id s rl rq env Hc | now id
    | ncheck nappr id a c | id a c ].
  - apply create_heap in Hc as [[_ ->]|(o1 & _ & Hh & Hr & _)]; [done|].
    unfold wf. rewrite Hh, Hr, length_app. simpl.
    apply map_Forall_insert_2; [lia|].
    intros id' r' Hr'. apply Hwf in Hr'. simpl in *. lia.
  - destruct (create_raised_frame m rl env) as (Hh & Hr & _).
    unfold wf. by rewrite Hh, Hr.
  - unfold check_approval_status.
    destruct (get_request m id) as [[r0 o0]|]; [|done].
    case_match; [by apply Hstore|done].
  - unfold approve_request.
    destruct (get_request m id) as [[r0 o0]|]; [|done].
    repeat case_match; simpl; try done; by apply Hstore.
  - unfold reject_request.
    destruct (get_request m id) as [[r0 o0]|]; [|done].
    repeat case_match; simpl; try done; by apply Hstore.
Qed.

(** Every state the manager can reach from [__init__] is well formed. *)
Lemma steps_wf (m m' : t) : rtc step m m' → wf m → wf m'.
Proof.
  induction 1 as [m|m m1 m2 Hs _ IH]; [done|].
  intros Hwf. apply IH. by eapply step_wf.
Qed.

Lemma reachable_wf (m : t) : rtc step init m → wf m.
Proof. intros Hsteps. eapply steps_wf; [done|apply wf_init]. Qed.

Lemma set_status_same_except_status (s : ApprovalStatus) (o : ApprovalRequest.t) :
  same_except_status o (ApprovalRequest.set_status s o).
Proof. by repeat split. Qed.

Lemma get_request_create
    (now_expires now_created : Z) (m m' : t)
    (request_id operation_summary risk_level requester environment : string)
    (r : ref) :
  create_approval_request now_expires now_created m request_id
    operation_summary risk_level requester environment = Some (m', Some r) →
  ∃ o, get_request m' request_id = Some (r, o)
       ∧ ApprovalRequest.status o = PENDING.
Proof.
  intros Hc. apply create_heap in Hc as [[? _]|(o & [= ->] & Hh & Hr & Hs)];
    [done|].
  exists o. split; [|done]. apply get_request_Some. rewrite Hh, Hr. split.
  - apply lookup_insert_eq.
  - by apply list_lookup_middle.
Qed.

(** C5. [check_approval_status] returns [None] exactly when the request id
    has no record. On an existing record it changes one thing in one case:
    a PENDING record whose [expires_at] is strictly before the clock gets
    the status EXPIRED (every other field, every other object and the rest
    of the manager stay as they are) and is returned; in every other case
    the state is returned unchanged. A record just made by
    [create_approval_request] and checked no later than its [expires_at]
    is returned as created: PENDING, with the approvers set at creation. *)
Theorem check_approval_status_frame (now : Z) (m : t) (request_id : string) :
  wf m →
  ((check_approval_status now m request_id).2 = None ↔
   approval_requests m !! request_id = None)
  ∧ (∀ r o, get_request m request_id = Some (r, o) →
       ApprovalRequest.status o = PENDING →
       ApprovalRequest.expires_at o < now →
       ∃ m' o',
         check_approval_status now m request_id = (m', Some r)
         ∧ get_request m' request_id = Some (r, o')
         ∧ ApprovalRequest.status o' = EXPIRED
         ∧ same_except_status o o'
         ∧ approval_policies m' = approval_policies m
         ∧ approval_requests m' = approval_requests m
         ∧ printed m' = printed m
         ∧ (∀ r', r' ≠ r → heap m' !! r' = heap m !! r'))
  ∧ (∀ r o, get_request m request_id = Some (r, o) →
       ¬ (ApprovalRequest.status o = PENDING
          ∧ ApprovalRequest.expires_at o < now) →
       check_approval_status now m request_id = (m, Some r))
  ∧ (∀ now_expires now_created operation_summary risk_level requester
       environment m1 r,
       create_approval_request now_expires now_created m request_id
         operation_summary risk_level requester environment
       = Some (m1, Some r) →
       ∃ o, get_request m1 request_id = Some (r, o)
            ∧ ApprovalRequest.status o = PENDING
            ∧ (now ≤ ApprovalRequest.expires_at o →
               check_approval_status now m1 request_id = (m1, Some r))).
Proof.
  intros Hwf. split; [|split; [|split]].
  - rewrite <- (wf_get_request m request_id Hwf).
    unfold check_approval_status.
    destruct (get_request m request_id) as [[r o]|]; [|done].
    by case_match.
  - intros r o Hg Hs Hexp. unfold check_approval_status. rewrite Hg.
    apply Z.ltb_lt in Hexp. rewrite Hexp, (bool_decide_eq_true_2 _ Hs). simpl.
    eexists _, _. split; [done|].
    split; [by eapply get_request_store|].
    split; [done|]. split; [apply set_status_same_except_status|].
    repeat split. intros r' Hne. simpl. by apply list_lookup_insert_ne.
  - intros r o Hg Hn. unfold check_approval_status. rewrite Hg.
    destruct (ApprovalRequest.expires_at o <? now) eqn:E; [|done].
    apply Z.ltb_lt in E. rewrite bool_decide_eq_false_2; [done|]. naive_solver.
  - intros ne nc s rl rq env m1 r Hc.
    destruct (get_request_create _ _ _ _ _ _ _ _ _ _ Hc) as (o & Hg & Hs).
    exists o. split; [done|]. split; [done|].
    intros Hle. unfold check_approval_status. rewrite Hg.
    apply Z.ltb_ge in Hle. by rewrite Hle.
Qed.

Lemma check_approval_status_frame_witness :
  wf init
  ∧ (check_approval_status 5 init "REQ-1").2 = None
  ∧ ∃ o, get_request medium_pending "REQ-1" = Some (0%nat, o)
         ∧ ApprovalRequest.status o = PENDING
         ∧ check_approval_status 5 medium_pending "REQ-1"
           = (medium_pending, Some 0%nat).
Proof.
  pose proof (check_approval_status_frame 5 init "REQ-1" wf_init)
    as (Hnone & _ & _ & Hcreate).
  split; [exact wf_init|]. split; [by apply Hnone|].
  destruct (Hcreate 0 0 "Cancel case CASE-1" "MEDIUM" "alice" "dev"
              medium_pending 0%nat) as (o & Hg & Hs & Hc); [by vm_compute|].
  exists o. split; [exact Hg|]. split; [exact Hs|].
  apply Hc. apply get_request_Some in Hg as [_ Hg].
  vm_compute in Hg. injection Hg as <-. by vm_compute.
Defined.

(** *** Rejection and expiry *)

(** [reject_request] reads no clock: on a PENDING record it succeeds for
    every eligible approver. *)
Lemma reject_request_pending
    (m : t) (request_id approver reason : string) (r : ref)
    (o : ApprovalRequest.t) :
  get_request m request_id = Some (r, o) →
  ApprovalRequest.status o = PENDING →
  approver ∈ ApprovalRequest.approvers o →
  ∃ m' o', reject_request m request_id approver reason = (m', true)
           ∧ get_request m' request_id = Some (r, o')
           ∧ ApprovalRequest.status o' = REJECTED
           ∧ ApprovalRequest.rejection_reason o' = Some reason.
Proof.
  intros Hg Hs Hin. unfold reject_request. rewrite Hg.
  rewrite (bool_decide_eq_true_2 _ Hs). apply str_in_spec in Hin.
  rewrite Hin. simpl. eexists _, _. split; [done|].
  split; [rewrite get_request_print; by eapply get_request_store|done].
Qed.

(** C2, at a failing input. The record REQ-1 of [medium_pending] is PENDING
    and expires at 86400000000. One microsecond later [approve_request] by
    ops_lead returns false and leaves the record EXPIRED, whereas
    [reject_request] by ops_lead returns true and leaves it REJECTED. *)
Theorem reject_request_after_expiry :
  get_request medium_pending "REQ-1" = Some (0%nat, medium_request)
  ∧ ApprovalRequest.status medium_request = PENDING
  ∧ ApprovalRequest.expires_at medium_request < 86400000001
  ∧ (∃ m', approve_request 86400000001 86400000001 medium_pending
             "REQ-1" "ops_lead" "late" = (m', false)
           ∧ ApprovalRequest.status <$> (snd <$> get_request m' "REQ-1")
             = Some EXPIRED)
  ∧ (∃ m', reject_request medium_pending "REQ-1" "ops_lead" "late" = (m', true)
           ∧ ApprovalRequest.status <$> (snd <$> get_request m' "REQ-1")
             = Some REJECTED).
Proof.
  split; [by vm_compute|]. split; [done|]. split; [by vm_compute|].
  split; eexists; (split; [by vm_compute|by vm_compute]).
Qed.

(** *** Eligible approvers *)

(** The object [create_approval_request] makes, in terms of the policy it
    found and of what [_get_eligible_approvers] returned. *)
Lemma create_object
    (now_expires now_created : Z) (m m' : t)
    (request_id operation_summary risk_level requester environment : string)
    (r : ref) :
  create_approval_request now_expires now_created m request_id
    operation_summary risk_level requester environment = Some (m', Some r) →
  ∃ key policy m1 l,
    get_policy (approval_policies m) risk_level = Some (key, policy)
    ∧ _get_eligible_approvers m risk_level environment = Some (m1, l)
    ∧ approval_policies m' = approval_policies m1
    ∧ get_request m' request_id
      = Some (r, ApprovalRequest.mk request_id operation_summary risk_level
                   requester l PENDING now_created
                   (now_expires + timedelta_hours (Policy.timeout_hours policy))
                   None None None).
Proof.
  unfold create_approval_request.
  destruct (get_policy (approval_policies m) risk_level) as [[key policy]|];
    [|done]. cbn [mbind option_bind].
  destruct (Policy.required policy); cbn [negb]; [|done].
  destruct (_get_eligible_approvers m risk_level environment) as [[m1 l]|];
    [|done]. cbn [mbind option_bind].
  destruct (add_hours now_expires (Policy.timeout_hours policy)) as [e|] eqn:E;
    [|done]. cbn [mbind option_bind].
  apply add_hours_Some in E. subst e.
  intros H. apply (inj Some) in H.
  pose proof (f_equal fst H) as Hm. pose proof (f_equal snd H) as Hr.
  cbn [fst snd] in Hm, Hr. apply (inj Some) in Hr. subst m' r.
  exists key, policy, m1, l. split; [done|]. split; [done|]. split; [done|].
  rewrite get_request_print. apply get_request_Some.
  cbn [approval_requests heap].
  split; [apply lookup_insert_eq|by apply list_lookup_middle].
Qed.

(** On a policy table that is still the one [__init__] built,
    [_get_eligible_approvers] returns the approvers the table prescribes. *)
Lemma get_eligible_approvers_pristine
    (m m1 : t) (risk_level environment : string) (l : list string) :
  approval_policies m = initial_policies →
  risk_level ∈ ["MEDIUM"; "HIGH"; "CRITICAL"] →
  _get_eligible_approvers m risk_level environment = Some (m1, l) →
  ∀ a, a ∈ l ↔ a ∈ expected_approvers risk_level environment.
Proof.
  intros Hps Hl. unfold _get_eligible_approvers, expected_approvers.
  rewrite Hps.
  assert (∃ p base, get_policy initial_policies risk_level = Some (risk_level, p)
                    ∧ Policy.eligible_approvers p = Some base
                    ∧ table_roles risk_level = base
                    ∧ str_in risk_level ["HIGH"; "CRITICAL"]
                      = bool_decide (risk_level = "HIGH" ∨ risk_level = "CRITICAL"))
    as (p & base & -> & Hel & -> & ->).
  { repeat (apply elem_of_cons in Hl as [->|Hl]); [..|by apply elem_of_nil in Hl];
      eexists _, _; (split; [by vm_compute|]); (split; [by vm_compute|]);
      (split; [by vm_compute|]).
    - by rewrite (bool_decide_eq_false_2 (_ ∨ _)) by (by intros [?|?]).
    - by rewrite (bool_decide_eq_true_2 (_ ∨ _)) by (by left).
    - by rewrite (bool_decide_eq_true_2 (_ ∨ _)) by (by right). }
  cbn [mbind option_bind]. rewrite Hel.
  destruct (bool_decide (environment = "prod")
            && bool_decide (risk_level = "HIGH" ∨ risk_level = "CRITICAL"));
    intros H; apply (inj Some) in H; apply (f_equal snd) in H;
    cbn [snd] in H; subst l; intros a; rewrite elem_of_list_set.
  - rewrite elem_of_app, elem_of_union, elem_of_list_to_set. set_solver.
  - rewrite elem_of_union, elem_of_list_to_set. set_solver.
Qed.

(** So the first requests of a manager get the approvers of the claim. *)
Lemma create_pristine_table_approvers
    (now_expires now_created : Z) (m m' : t)
    (request_id operation_summary risk_level requester environment : string)
    (r : ref) :
  approval_policies m = initial_policies →
  risk_level ∈ ["MEDIUM"; "HIGH"; "CRITICAL"] →
  create_approval_request now_expires now_created m request_id
    operation_summary risk_level requester environment = Some (m', Some r) →
  ∃ o, get_request m' request_id = Some (r, o)
       ∧ ∀ a, a ∈ ApprovalRequest.approvers o ↔
              a ∈ expected_approvers risk_level environment.
Proof.
  intros Hps Hl Hc.
  apply create_object in Hc as (key & policy & m1 & l & _ & He & _ & Hg).
  eexists. split; [exact Hg|]. cbn [ApprovalRequest.approvers].
  by eapply get_eligible_approvers_pristine.
Qed.

(** C1, at a failing input. On a manager that has created one HIGH request
    for prod, a HIGH request for dev gets cto and vp_engineering among its
    approvers: the first call appended them to the list inside the policy
    table. The table prescribes ops_manager and engineering_manager. *)
Theorem create_after_prod_high_keeps_escalation :
  ∃ m r o,
    create_approval_request 0 0 after_prod_high "REQ-2" "Change status"
      "HIGH" "bob" "dev" = Some (m, Some r)
    ∧ heap m !! r = Some o
    ∧ (∀ a, a ∈ ApprovalRequest.approvers o ↔
            a ∈ ["ops_manager"; "engineering_manager"; "cto"; "vp_engineering"])
    ∧ (∀ a, a ∈ expected_approvers "HIGH" "dev" ↔
            a ∈ ["ops_manager"; "engineering_manager"])
    ∧ (list_to_set (ApprovalRequest.approvers o) : gset string)
      ≠ expected_approvers "HIGH" "dev"
    ∧ Policy.eligible_approvers <$> approval_policies after_prod_high !! "HIGH"
      = Some (Some ["ops_manager"; "engineering_manager"; "cto"; "vp_engineering"]).
Proof.
  assert (∀ a, a ∈ expected_approvers "HIGH" "dev" ↔
               a ∈ ["ops_manager"; "engineering_manager"]) as Hexp.
  { intros a. unfold expected_approvers.
    replace (table_roles "HIGH") with ["ops_manager"; "engineering_manager"]
      by (by vm_compute).
    rewrite (bool_decide_eq_false_2 ("dev" = "prod")) by done.
    rewrite andb_false_l, elem_of_union, elem_of_list_to_set.
    rewrite elem_of_empty. tauto. }
  eexists _, _, _. split; [by vm_compute|]. split; [by vm_compute|].
  cbn [ApprovalRequest.approvers].
  assert (∀ a, a ∈ ["ops_manager"; "cto"; "engineering_manager"; "vp_engineering"]
               ↔ a ∈ ["ops_manager"; "engineering_manager"; "cto"; "vp_engineering"])
    as Happ.
  { intros a. rewrite !elem_of_cons, !elem_of_nil. tauto. }
  split; [exact Happ|]. split; [exact Hexp|]. split; [|by vm_compute].
  intros Heq.
  assert ("cto" ∈ expected_approvers "HIGH" "dev") as Hcto.
  { rewrite <- Heq. apply elem_of_list_to_set, Happ.
    rewrite !elem_of_cons. tauto. }
  apply Hexp in Hcto. rewrite !elem_of_cons, elem_of_nil in Hcto.
  by destruct Hcto as [?|[?|?]].
Qed.

(** C10, as stated, fails: a request of the unknown level SEVERE for prod
    is created PENDING with a 12 hour expiry, but its approvers are
    ops_manager and engineering_manager only. *)
Lemma unknown_level_prod_not_escalated :
  ∃ m r o,
    create_approval_request 0 0 init "REQ-1" "Cancel case CASE-1"
      "SEVERE" "alice" "prod" = Some (m, Some r)
    ∧ get_request m "REQ-1" = Some (r, o)
    ∧ ApprovalRequest.status o = PENDING
    ∧ ApprovalRequest.expires_at o = 0 + timedelta_hours 12
    ∧ ¬ (∀ a, a ∈ ["ops_manager"; "engineering_manager"; "cto"; "vp_engineering"]
              → a ∈ ApprovalRequest.approvers o).
Proof.
  eexists _, _, _. split; [by vm_compute|]. split; [by vm_compute|].
  split; [done|]. split; [by vm_compute|].
  intros H. specialize (H "cto"). revert H.
  apply (bool_decide_unpack _). by vm_compute.
Qed.

Lemma approve_request_cases_witness :
  ∃ m',
    approve_request 1 2 medium_pending "REQ-1" "ops_lead" "ok" = (m', true)
    ∧ ApprovalRequest.status <$> (snd <$> get_request m' "REQ-1") = Some APPROVED
    ∧ approve_request 1 2 medium_pending "REQ-1" "random_user" "ok"
      = (medium_pending, false)
    ∧ approve_request 1 2 medium_pending "REQ-9" "ops_lead" "ok"
      = (medium_pending, false)
    ∧ (approve_request 86400000001 86400000002 medium_pending "REQ-1"
         "ops_lead" "ok").2 = false.
Proof.
  pose proof (approve_request_cases 1 2 medium_pending "REQ-1" "ops_lead" "ok")
    as (_ & _ & _ & _ & Hok).
  destruct (Hok 0%nat medium_request) as (m' & o' & Ha & Hg & -> & _);
    [reflexivity | reflexivity | by apply (bool_decide_unpack _) | by vm_compute |].
  exists m'. split; [exact Ha|]. split; [by rewrite Hg|]. split.
  - pose proof (approve_request_cases 1 2 medium_pending "REQ-1" "random_user" "ok")
      as (_ & _ & Hne & _).
    apply (Hne 0%nat medium_request); [reflexivity|].
    by apply (bool_decide_unpack _).
  - split.
    + pose proof (approve_request_cases 1 2 medium_pending "REQ-9" "ops_lead" "ok")
        as (Habs & _).
      apply Habs. reflexivity.
    + pose proof (approve_request_cases 86400000001 86400000002 medium_pending
                    "REQ-1" "ops_lead" "ok") as (_ & _ & _ & Hexp & _).
      destruct (Hexp 0%nat medium_request) as (m'' & o'' & He & _);
        [reflexivity | reflexivity | by apply (bool_decide_unpack _) | by vm_compute |].
      by rewrite He.
Defined.

End ApprovalManagerFacts.

(** ** More on the risk engine *)

Module RiskEngineBounds.
Import Py Models RiskEngine RiskEngineFacts Samples.

Lemma float_neq_2_5 : 0.2%float ≠ 0.5%float.
Proof. intros E. apply (f_equal Prim2SF) in E. by vm_compute in E. Qed.

Lemma float_neq_2_8 : 0.2%float ≠ 0.8%float.
Proof. intros E. apply (f_equal Prim2SF) in E. by vm_compute in E. Qed.

Lemma float_neq_5_8 : 0.5%float ≠ 0.8%float.
Proof. intros E. apply (f_equal Prim2SF) in E. by vm_compute in E. Qed.

(** X7. The timing score by hour: 0.2 from 9 to 17 inclusive (the hours 9
    and 17 count as business hours although the second test also covers
    them), 0.5 from 6 to 8 and from 18 to 22, and 0.8 for every other
    hour. *)
Theorem time_risk_bands (hour : Z) :
  (_calculate_time_risk hour = 0.2%float ↔ 9 ≤ hour ≤ 17)
  ∧ (_calculate_time_risk hour = 0.5%float ↔
       6 ≤ hour ≤ 8 ∨ 18 ≤ hour ≤ 22)
  ∧ (_calculate_time_risk hour = 0.8%float ↔ hour < 6 ∨ 22 < hour).
Proof.
  pose proof float_neq_2_5. pose proof float_neq_2_8. pose proof float_neq_5_8.
  unfold _calculate_time_risk.
  destruct (Z.leb_spec 9 hour), (Z.leb_spec hour 17), (Z.leb_spec 6 hour),
    (Z.leb_spec hour 9), (Z.leb_spec 17 hour), (Z.leb_spec hour 22);
    cbn [andb orb]; repeat split; intros; try lia; try done; try congruence.
Qed.

(** X8. [_build_constraints] raises on every input: after the dictionary
    is built and updated for prod, the test for the task evaluates
    [TaskId.CANCEL_CASE]. No constraints are ever returned. *)
Theorem build_constraints_raises
    (risk_level : RiskLevel) (environment : option string)
    (task_id : option TaskId) :
  _build_constraints risk_level environment task_id = None.
Proof. reflexivity. Qed.

End RiskEngineBounds.

(** ** More on the policy validator: who is denied, and what is allowed *)

Module PolicyValidatorMore.
Import Py Models PolicyValidator PolicyValidatorFacts Samples.

Lemma no_blocking_app (a b : list PolicyViolation.t) :
  no_blocking (a ++ b) = no_blocking a && no_blocking b.
Proof.
  unfold no_blocking. rewrite filter_app, length_app.
  repeat case_bool_decide; simpl; try done; lia.
Qed.

Lemma task_policies_warnings
    (classification : ClassificationResult) (request : OperationalRequest) :
  Forall (λ v, PolicyViolation.severity v = "WARNING")
         (_validate_task_policies classification request)
  ∧ (environment request ≠ Some "prod" →
     _validate_task_policies classification request = []).
Proof.
  unfold _validate_task_policies.
  destruct (task_id classification) as [t|]; [|by split].
  destruct (contains "CANCEL" (TaskId_value t)); [|by split].
  case_bool_decide as Hp; simpl; [|by split].
  destruct (negb _); split; try done; by repeat constructor.
Qed.

Lemma has_production_access_false (user_id : string) :
  _has_production_access user_id = false ↔
  contains "ops" (lower user_id) = false
  ∧ contains "admin" (lower user_id) = false
  ∧ contains "engineer" (lower user_id) = false.
Proof.
  unfold _has_production_access. cbn [existsb].
  rewrite orb_false_r, !orb_false_iff. tauto.
Qed.

(** X9. [validate_request] denies a request exactly when it is for prod
    and the user id contains none of ops, admin and engineer (in any
    case). *)
Theorem validate_request_denied_iff
    (hour weekday : Z) (request : OperationalRequest)
    (classification : ClassificationResult)
    (risk_assessment : option RiskEngine.RiskAssessment.t) :
  PolicyValidationResult.allowed
    (validate_request hour weekday request classification risk_assessment)
  = false ↔
  environment request = Some "prod"
  ∧ contains "ops" (lower (user_id request)) = false
  ∧ contains "admin" (lower (user_id request)) = false
  ∧ contains "engineer" (lower (user_id request)) = false.
Proof.
  rewrite <- has_production_access_false.
  unfold validate_request. cbn [PolicyValidationResult.allowed].
  rewrite no_blocking_app.
  rewrite (no_blocking_warnings (_validate_task_policies _ _))
    by apply task_policies_warnings.
  rewrite andb_true_r.
  case_bool_decide as Hp; simpl.
  - destruct (_has_production_access (user_id request)); simpl.
    + split; [done|]. by intros [_ ?].
    + split; [done|]. by vm_compute.
  - split; [by vm_compute|]. by intros [? _].
Qed.

(** X10. Outside prod, [validate_request] reports no violation at all and
    allows the request. *)
Theorem validate_request_outside_prod
    (hour weekday : Z) (request : OperationalRequest)
    (classification : ClassificationResult)
    (risk_assessment : option RiskEngine.RiskAssessment.t) :
  environment request ≠ Some "prod" →
  PolicyValidationResult.violations
    (validate_request hour weekday request classification risk_assessment) = []
  ∧ PolicyValidationResult.allowed
      (validate_request hour weekday request classification risk_assessment)
    = true.
Proof.
  intros Hp. unfold validate_request.
  cbn [PolicyValidationResult.violations PolicyValidationResult.allowed].
  rewrite (proj2 (task_policies_warnings classification request) Hp).
  by rewrite (bool_decide_eq_false_2 _ Hp).
Qed.

Lemma validate_request_outside_prod_witness :
  PolicyValidationResult.allowed
    (validate_request 3 6 dev_request cancel_classification None) = true.
Proof.
  by apply (validate_request_outside_prod 3 6 dev_request
              cancel_classification None).
Defined.

Lemma environment_policies_unknown (e : option string) :
  e ∉ [Some "dev"; Some "staging"; Some "prod"] →
  e ≫= (environment_policies !!.) = None.
Proof.
  intros He. destruct e as [e|]; [|done]. simpl.
  unfold environment_policies.
  rewrite !lookup_insert_ne, lookup_empty; [done|..];
    intros <-; apply He; set_solver.
Qed.

(** X11. For an environment that is none of dev, staging and prod (or is
    missing), [validate_request] falls back to the prod policy: its
    constraints demand approval, backup, a rollback plan and notification,
    and cap the risk at MEDIUM. *)
Theorem validate_request_unknown_environment
    (hour weekday : Z) (request : OperationalRequest)
    (classification : ClassificationResult)
    (risk_assessment : option RiskEngine.RiskAssessment.t) :
  environment request ∉ [Some "dev"; Some "staging"; Some "prod"] →
  let c := PolicyValidationResult.constraints
             (validate_request hour weekday request classification
                risk_assessment) in
  c !! "api_only" = Some (PyBool true)
  ∧ c !! "approval_required" = Some (PyBool true)
  ∧ c !! "backup_required" = Some (PyBool true)
  ∧ c !! "rollback_plan_required" = Some (PyBool true)
  ∧ c !! "notification_required" = Some (PyBool true)
  ∧ c !! "max_risk_level" = Some (PyStr "MEDIUM").
Proof.
  intros He. unfold validate_request.
  cbn [PolicyValidationResult.constraints].
  rewrite (environment_policies_unknown _ He). by vm_compute.
Qed.

Lemma validate_request_unknown_environment_witness :
  PolicyValidationResult.constraints
    (validate_request 3 6 sample_request sample_classification None)
    !! "max_risk_level" = Some (PyStr "MEDIUM").
Proof.
  apply (validate_request_unknown_environment 3 6 sample_request
           sample_classification None).
  by apply (bool_decide_unpack _).
Defined.

Lemma risk_levels_lookup (s : string) :
  risk_levels_get (PyStr s) 4
  = if bool_decide (s = "LOW") then 1
    else if bool_decide (s = "MEDIUM") then 2
    else if bool_decide (s = "HIGH") then 3 else 4.
Proof.
  unfold risk_levels_get, risk_levels. cbn [list_to_map foldr].
  repeat case_bool_decide; subst; try (by vm_compute).
  destruct (decide (s = "CRITICAL")) as [->|?]; [by vm_compute|].
  by rewrite !lookup_insert_ne, lookup_empty by done.
Qed.

(** The limit [validate_plan] reads for an environment: MEDIUM for prod,
    HIGH for staging and dev, and HIGH by default for any other one. *)
Lemma validate_plan_max_risk (e : option string) :
  default (PyStr "HIGH")
    ((default ∅ (e ≫= (environment_policies !!.)) : gmap string PyVal)
       !! "max_risk_level")
  = if bool_decide (e = Some "prod") then PyStr "MEDIUM" else PyStr "HIGH".
Proof.
  destruct (decide (e ∈ [Some "dev"; Some "staging"; Some "prod"])) as [Hk|Hu].
  - repeat (apply elem_of_cons in Hk as [->|Hk]); [..|by apply elem_of_nil in Hk];
      by vm_compute.
  - rewrite (environment_policies_unknown _ Hu).
    rewrite bool_decide_eq_false_2; [done|]. intros ->. apply Hu. set_solver.
Qed.

(** The rank [validate_plan] gives to the plan's level and the limit it
    compares it with. *)
Lemma validate_plan_allowed
    (plan : PlanGenerator.OperationalPlan) (request : OperationalRequest) :
  PolicyValidationResult.allowed (validate_plan plan request)
  = negb (bool_decide (environment request = Some "prod")
          && bool_decide (PlanGenerator.rollback plan = []))
    && ((risk_levels_get (PyStr (PlanGenerator.risk_level plan)) 4)
        <=? (if bool_decide (environment request = Some "prod") then 2 else 3)).
Proof.
  unfold validate_plan. cbn [PolicyValidationResult.allowed].
  rewrite validate_plan_max_risk. unfold _risk_exceeds_limit, _validate_api_usage.
  cbn [app].
  assert (risk_levels_get
            (if bool_decide (environment request = Some "prod")
             then PyStr "MEDIUM" else PyStr "HIGH") 3
          = if bool_decide (environment request = Some "prod") then 2 else 3)
    as -> by (case_bool_decide; by vm_compute).
  rewrite Z.leb_antisym.
  destruct (bool_decide (environment request = Some "prod"));
    destruct (PlanGenerator.rollback plan) as [|x l]; cbn [andb negb];
    try rewrite (bool_decide_eq_true_2 ([] = [])) by done;
    try rewrite (bool_decide_eq_false_2 (x :: l = [])) by done;
    cbn [andb negb];
    destruct (_ <? _); by vm_compute.
Qed.

(** X12. What [validate_plan] allows: in prod a plan of level LOW or MEDIUM
    that has rollback steps; in every other environment a plan of level LOW,
    MEDIUM or HIGH, with or without rollback steps. *)
Theorem validate_plan_allowed_iff
    (plan : PlanGenerator.OperationalPlan) (request : OperationalRequest) :
  PolicyValidationResult.allowed (validate_plan plan request) = true ↔
    (environment request = Some "prod"
     ∧ PlanGenerator.rollback plan ≠ []
     ∧ (PlanGenerator.risk_level plan = "LOW"
        ∨ PlanGenerator.risk_level plan = "MEDIUM"))
    ∨ (environment request ≠ Some "prod"
       ∧ (PlanGenerator.risk_level plan = "LOW"
          ∨ PlanGenerator.risk_level plan = "MEDIUM"
          ∨ PlanGenerator.risk_level plan = "HIGH")).
Proof.
  rewrite validate_plan_allowed, risk_levels_lookup.
  rewrite andb_true_iff, negb_true_iff, andb_false_iff, !bool_decide_eq_false.
  rewrite Z.leb_le.
  repeat case_bool_decide; intuition (try lia; try congruence).
Qed.

(** X13. A plan whose level is CRITICAL, or is not one of the four level
    names, is rejected in every environment. *)
Theorem validate_plan_rejects_critical_and_unknown
    (plan : PlanGenerator.OperationalPlan) (request : OperationalRequest) :
  PlanGenerator.risk_level plan ∉ ["LOW"; "MEDIUM"; "HIGH"] →
  PolicyValidationResult.allowed (validate_plan plan request) = false.
Proof.
  intros Hl. rewrite validate_plan_allowed, risk_levels_lookup.
  rewrite (bool_decide_eq_false_2 (PlanGenerator.risk_level plan = "LOW")),
    (bool_decide_eq_false_2 (PlanGenerator.risk_level plan = "MEDIUM")),
    (bool_decide_eq_false_2 (PlanGenerator.risk_level plan = "HIGH"))
    by (intros E; apply Hl; rewrite E; set_solver).
  apply andb_false_iff. right. by case_bool_decide.
Qed.

Lemma validate_plan_rejects_critical_and_unknown_witness :
  PolicyValidationResult.allowed (validate_plan typo_plan dev_request) = false.
Proof.
  apply (validate_plan_rejects_critical_and_unknown typo_plan dev_request).
  by apply (bool_decide_unpack _).
Defined.

(** X14. [validate_request] attaches no warning exactly when the request is
    made on a weekday and, if it is for prod, between 9 and 17 o'clock; it
    never attaches more than two. *)
Theorem validate_request_warnings
    (hour weekday : Z) (request : OperationalRequest)
    (classification : ClassificationResult)
    (risk_assessment : option RiskEngine.RiskAssessment.t) :
  (PolicyValidationResult.warnings
     (validate_request hour weekday request classification risk_assessment) = []
   ↔ (environment request ≠ Some "prod" ∨ 9 ≤ hour ≤ 17) ∧ weekday < 5)
  ∧ (length (PolicyValidationResult.warnings
               (validate_request hour weekday request classification
                  risk_assessment)) ≤ 2)%nat.
Proof.
  unfold validate_request, _validate_time_policies.
  cbn [PolicyValidationResult.warnings app].
  case_bool_decide as Hp;
    destruct (Z.leb_spec 9 hour) as [H9|H9], (Z.leb_spec hour 17) as [H17|H17],
      (Z.leb_spec 5 weekday) as [H5|H5];
    cbn [andb negb app length]; (split; [|lia]);
    (split;
     [ intros Hx; try discriminate Hx;
       (split; [first [by left | right; lia]|lia])
     | intros [[Ha|Ha] Hb]; try done; lia ]).
Qed.

Lemma float_neq_2_7 : 0.2%float ≠ 0.7%float.
Proof. intros E. apply (f_equal Prim2SF) in E. by vm_compute in E. Qed.

Lemma float_neq_4_7 : 0.4%float ≠ 0.7%float.
Proof. intros E. apply (f_equal Prim2SF) in E. by vm_compute in E. Qed.

(** X15. The validator and the risk engine read the user id alike: a user
    has production access exactly when the risk engine does not score him
    as an unknown user (0.7). *)
Theorem production_access_iff_known_user (user_id : string) :
  _has_production_access user_id = true ↔
  RiskEngine._calculate_user_risk user_id ≠ 0.7%float.
Proof.
  pose proof float_neq_2_7. pose proof float_neq_4_7.
  unfold _has_production_access, RiskEngine._calculate_user_risk.
  cbn [existsb].
  destruct (contains "ops" (lower user_id)),
    (contains "admin" (lower user_id)),
    (contains "engineer" (lower user_id)); cbn [orb]; split; try done;
    intros Hx; by exfalso.
Qed.

End PolicyValidatorMore.

(** ** More on the approval manager: invariants of reachable states *)

Module ApprovalManagerInvariants.
Import Py ApprovalManager ApprovalManagerFacts Samples.

Lemma elem_of_escalated (base : list string) (n : nat) (a : string) :
  a ∈ escalated base n ↔
  a ∈ base ∨ (n ≠ 0%nat ∧ (a = "cto" ∨ a = "vp_engineering")).
Proof.
  induction n as [|n IH]; cbn [escalated].
  - split; [by left|]. by intros [?|[? _]].
  - rewrite elem_of_app, IH, !elem_of_cons, elem_of_nil.
    split; [|intuition]. intros [[?|[_ ?]]|[?|[?|[]]]]; auto.
Qed.

Lemma policy_table_inv_initial : policy_table_inv initial_policies.
Proof.
  split; [by vm_compute|]. split; [by vm_compute|].
  split; [by exists 0%nat; vm_compute|]. split; [by exists 0%nat; vm_compute|].
  intros k Hk. unfold initial_policies.
  rewrite !lookup_insert_ne, lookup_empty; [done|..];
    intros <-; apply Hk; set_solver.
Qed.

(** The entry [get_policy] finds in a table of the invariant shape. *)
Lemma get_policy_inv (ps : gmap string Policy.t) (risk_level : string) :
  policy_table_inv ps →
  ∃ key p, get_policy ps risk_level = Some (key, p)
           ∧ ps !! key = Some p
           ∧ (risk_level ∈ ["LOW"; "MEDIUM"; "HIGH"; "CRITICAL"] →
              key = risk_level)
           ∧ (risk_level ∉ ["LOW"; "MEDIUM"; "HIGH"; "CRITICAL"] → key = "HIGH")
           ∧ (Policy.required p = bool_decide (risk_level ≠ "LOW"))
           ∧ (risk_level ≠ "LOW" → Policy.timeout_hours p = timeout_of risk_level).
Proof.
  intros (Hlow & Hmed & [nh Hhigh] & [nc Hcrit] & Hother).
  unfold get_policy. rewrite Hhigh. cbn [mbind option_bind].
  destruct (decide (risk_level ∈ ["LOW"; "MEDIUM"; "HIGH"; "CRITICAL"]))
    as [Hk|Hu].
  - repeat (apply elem_of_cons in Hk as [->|Hk]); [..|by apply elem_of_nil in Hk].
    + rewrite Hlow. eexists _, _. split; [done|]. split; [done|].
      split; [done|]. split; [intros H; exfalso; apply H; set_solver|].
      by split.
    + rewrite Hmed. eexists _, _. split; [done|]. split; [done|].
      split; [done|]. split; [intros H; exfalso; apply H; set_solver|].
      by split.
    + rewrite Hhigh. eexists _, _. split; [done|]. split; [done|].
      split; [done|]. split; [intros H; exfalso; apply H; set_solver|].
      by split.
    + rewrite Hcrit. eexists _, _. split; [done|]. split; [done|].
      split; [done|]. split; [intros H; exfalso; apply H; set_solver|].
      by split.
  - rewrite (Hother _ Hu). eexists _, _. split; [done|]. split; [done|].
    split; [done|]. split; [done|]. cbn [Policy.required Policy.timeout_hours].
    assert (risk_level ≠ "LOW" ∧ risk_level ≠ "MEDIUM" ∧ risk_level ≠ "CRITICAL")
      as (? & ? & ?) by (repeat split; intros ->; apply Hu; set_solver).
    split; [by rewrite bool_decide_eq_true_2|].
    intros _. unfold timeout_of. by rewrite !bool_decide_eq_false_2.
Qed.

Lemma elem_of_expected_approvers (risk_level environment a : string) :
  a ∈ expected_approvers risk_level environment ↔
  a ∈ table_roles risk_level
  ∨ (environment = "prod" ∧ (risk_level = "HIGH" ∨ risk_level = "CRITICAL")
     ∧ (a = "cto" ∨ a = "vp_engineering")).
Proof.
  unfold expected_approvers. rewrite elem_of_union, elem_of_list_to_set.
  destruct (bool_decide (environment = "prod")) eqn:E1;
    destruct (bool_decide (risk_level = "HIGH" ∨ risk_level = "CRITICAL")) eqn:E2;
    cbn [andb];
    try apply bool_decide_eq_true in E1; try apply bool_decide_eq_true in E2;
    try apply bool_decide_eq_false in E1; try apply bool_decide_eq_false in E2;
    rewrite ?elem_of_union, ?elem_of_singleton, ?elem_of_empty; tauto.
Qed.

Lemma table_roles_values :
  table_roles "MEDIUM" = ["ops_lead"; "senior_engineer"]
  ∧ table_roles "HIGH" = ["ops_manager"; "engineering_manager"]
  ∧ table_roles "CRITICAL" = ["ops_director"; "cto"; "vp_engineering"].
Proof. repeat split; by vm_compute. Qed.

(** An update of one entry keeps the invariant shape when the new entry
    is of that shape. *)
Lemma policy_table_inv_insert_HIGH (ps : gmap string Policy.t) (n : nat) :
  policy_table_inv ps →
  policy_table_inv
    (<["HIGH" := Policy.mk true 2 12
                   (Some (escalated ["ops_manager"; "engineering_manager"] n))]> ps).
Proof.
  intros (Hlow & Hmed & _ & Hcrit & Hother).
  split; [by rewrite lookup_insert_ne|]. split; [by rewrite lookup_insert_ne|].
  split; [exists n; apply lookup_insert_eq|].
  split; [by rewrite lookup_insert_ne|].
  intros k Hk. rewrite lookup_insert_ne; [by apply Hother|].
  intros <-. apply Hk. set_solver.
Qed.

Lemma policy_table_inv_insert_CRITICAL (ps : gmap string Policy.t) (n : nat) :
  policy_table_inv ps →
  policy_table_inv
    (<["CRITICAL" := Policy.mk true 2 4
         (Some (escalated ["ops_director"; "cto"; "vp_engineering"] n))]> ps).
Proof.
  intros (Hlow & Hmed & Hhigh & _ & Hother).
  split; [by rewrite lookup_insert_ne|]. split; [by rewrite lookup_insert_ne|].
  split; [by rewrite lookup_insert_ne|].
  split; [exists n; apply lookup_insert_eq|].
  intros k Hk. rewrite lookup_insert_ne; [by apply Hother|].
  intros <-. apply Hk. set_solver.
Qed.

Lemma get_eligible_approvers_inv (m : t) (risk_level environment : string) :
  policy_table_inv (approval_policies m) →
  risk_level ≠ "LOW" →
  ∃ m1 l n,
    _get_eligible_approvers m risk_level environment = Some (m1, l)
    ∧ policy_table_inv (approval_policies m1)
    ∧ heap m1 = heap m ∧ approval_requests m1 = approval_requests m
    ∧ printed m1 = printed m
    ∧ l = list_set (escalated (base_roles risk_level) n)
    ∧ (risk_level = "MEDIUM" → n = 0%nat)
    ∧ (environment = "prod"
       ∧ (risk_level = "HIGH" ∨ risk_level = "CRITICAL") → n ≠ 0%nat).
Proof.
  intros Hinv Hnl.
  pose proof Hinv as (Hlow & Hmed & [nh Hhigh] & [nc Hcrit] & Hother).
  unfold _get_eligible_approvers, get_policy. rewrite Hhigh.
  cbn [mbind option_bind].
  destruct (decide (risk_level = "MEDIUM")) as [->|Hnm].
  { rewrite Hmed. cbn [Policy.eligible_approvers].
    replace (str_in "MEDIUM" ["HIGH"; "CRITICAL"]) with false by (by vm_compute).
    rewrite andb_false_r. eexists m, _, 0%nat. split; [done|].
    split; [done|]. repeat split; try done. by intros [_ [?|?]]. }
  destruct (decide (risk_level = "HIGH")) as [->|Hnh].
  { rewrite Hhigh. cbn [Policy.eligible_approvers].
    replace (str_in "HIGH" ["HIGH"; "CRITICAL"]) with true by (by vm_compute).
    rewrite andb_true_r. case_bool_decide as Hp.
    - eexists _, _, (S nh). split; [done|].
      split; [by apply (policy_table_inv_insert_HIGH _ (S nh))|].
      repeat split; done.
    - eexists m, _, nh. split; [done|]. split; [done|].
      repeat split; try done. by intros [? _]. }
  destruct (decide (risk_level = "CRITICAL")) as [->|Hnc].
  { rewrite Hcrit. cbn [Policy.eligible_approvers].
    replace (str_in "CRITICAL" ["HIGH"; "CRITICAL"]) with true by (by vm_compute).
    rewrite andb_true_r. case_bool_decide as Hp.
    - eexists _, _, (S nc). split; [done|].
      split; [by apply (policy_table_inv_insert_CRITICAL _ (S nc))|].
      repeat split; done.
    - eexists m, _, nc. split; [done|]. split; [done|].
      repeat split; try done. by intros [? _]. }
  rewrite Hother by set_solver. cbn [Policy.eligible_approvers].
  assert (str_in risk_level ["HIGH"; "CRITICAL"] = false) as ->.
  { apply bool_decide_eq_false_2. set_solver. }
  rewrite andb_false_r. eexists m, _, nh. split; [done|]. split; [done|].
  unfold base_roles. rewrite !bool_decide_eq_false_2 by done.
  repeat split; try done. by intros [_ [?|?]].
Qed.

Lemma timeout_of_range (risk_level : string) :
  timedelta_min ≤ timedelta_hours (timeout_of risk_level) ≤ timedelta_max.
Proof.
  unfold timeout_of, timedelta_hours, timedelta_min, timedelta_max.
  repeat case_bool_decide; lia.
Qed.

(** [create_approval_request] on a table of the invariant shape. *)
Lemma create_inv
    (now_expires now_created : Z) (m : t)
    (request_id operation_summary risk_level requester environment : string) :
  policy_table_inv (approval_policies m) →
  (risk_level = "LOW" →
   create_approval_request now_expires now_created m request_id
     operation_summary risk_level requester environment = Some (m, None))
  ∧ (risk_level ≠ "LOW" →
     ∃ ps n,
       let o := ApprovalRequest.mk request_id operation_summary risk_level
                  requester (list_set (escalated (base_roles risk_level) n))
                  PENDING now_created
                  (now_expires + timedelta_hours (timeout_of risk_level))
                  None None None in
       policy_table_inv ps
       ∧ (risk_level = "MEDIUM" → n = 0%nat)
       ∧ (environment = "prod"
          ∧ (risk_level = "HIGH" ∨ risk_level = "CRITICAL") → n ≠ 0%nat)
       ∧ approval_policies
           (create_approval_request_raised m risk_level environment) = ps
       ∧ (datetime_min ≤ now_expires + timedelta_hours (timeout_of risk_level)
            ≤ datetime_max →
          create_approval_request now_expires now_created m request_id
            operation_summary risk_level requester environment
          = Some (mk ps (<[request_id := length (heap m)]> (approval_requests m))
                     (heap m ++ [o]) (printed m ++ [ApprovalNeeded o]),
                  Some (length (heap m))))
       ∧ (¬ (datetime_min ≤ now_expires + timedelta_hours (timeout_of risk_level)
               ≤ datetime_max) →
          create_approval_request now_expires now_created m request_id
            operation_summary risk_level requester environment = None)).
Proof.
  intros Hinv. unfold create_approval_request.
  destruct (get_policy_inv _ risk_level Hinv)
    as (key & p & -> & _ & _ & _ & Hreq & Htime).
  cbn [mbind option_bind]. rewrite Hreq. split.
  - intros ->. by rewrite bool_decide_eq_false_2 by (by intros ?).
  - intros Hnl. rewrite (bool_decide_eq_true_2 _ Hnl). cbn [negb].
    destruct (get_eligible_approvers_inv m risk_level environment Hinv Hnl)
      as (m1 & l & n & He & Hinv1 & Hh & Hr & Hp & -> & Hmed & Hprod).
    exists (approval_policies m1), n. cbn zeta.
    split; [done|]. split; [done|]. split; [done|]. split.
    { unfold create_approval_request_raised. by rewrite He. }
    rewrite He. cbn [mbind option_bind]. rewrite (Htime Hnl). split.
    + intros Hrange.
      rewrite (add_hours_in_range _ _ (timeout_of_range risk_level) Hrange).
      cbn [mbind option_bind]. rewrite Hh, Hr. unfold print.
      cbn [approval_policies approval_requests heap printed]. by rewrite Hp.
    + intros Hout. by rewrite (add_hours_out_of_range _ _ Hout).
Qed.

(** What a returning [create_approval_request] has done, on a table of the
    invariant shape. *)
Lemma create_returns_inv
    (now_expires now_created : Z) (m m' : t)
    (request_id operation_summary risk_level requester environment : string)
    (res : option ref) :
  policy_table_inv (approval_policies m) →
  create_approval_request now_expires now_created m request_id
    operation_summary risk_level requester environment = Some (m', res) →
  (risk_level = "LOW" ∧ m' = m ∧ res = None)
  ∨ (risk_level ≠ "LOW"
     ∧ ∃ ps n,
         let o := ApprovalRequest.mk request_id operation_summary risk_level
                    requester (list_set (escalated (base_roles risk_level) n))
                    PENDING now_created
                    (now_expires + timedelta_hours (timeout_of risk_level))
                    None None None in
         policy_table_inv ps
         ∧ (risk_level = "MEDIUM" → n = 0%nat)
         ∧ (environment = "prod"
            ∧ (risk_level = "HIGH" ∨ risk_level = "CRITICAL") → n ≠ 0%nat)
         ∧ m' = mk ps (<[request_id := length (heap m)]> (approval_requests m))
                   (heap m ++ [o]) (printed m ++ [ApprovalNeeded o])
         ∧ res = Some (length (heap m))
         ∧ datetime_min ≤ now_expires + timedelta_hours (timeout_of risk_level)
             ≤ datetime_max).
Proof.
  intros Hinv Hc.
  destruct (create_inv now_expires now_created m request_id operation_summary
              risk_level requester environment Hinv) as [Hlow Hreq].
  destruct (decide (risk_level = "LOW")) as [Hl|Hl].
  - left. rewrite (Hlow Hl) in Hc. apply (inj Some) in Hc.
    pose proof (f_equal fst Hc) as Hm. pose proof (f_equal snd Hc) as Hres.
    cbn [fst snd] in Hm, Hres. by subst m' res.
  - right. split; [done|].
    destruct (Hreq Hl) as (ps & n & Hps & Hmed & Hprod & _ & Hin & Hout).
    cbn zeta in Hin, Hout.
    destruct (decide (datetime_min
                      ≤ now_expires + timedelta_hours (timeout_of risk_level)
                      ≤ datetime_max)) as [Hd|Hd].
    + rewrite (Hin Hd) in Hc. apply (inj Some) in Hc.
      pose proof (f_equal fst Hc) as Hm. pose proof (f_equal snd Hc) as Hres.
      cbn [fst snd] in Hm, Hres. exists ps, n. cbn zeta. by subst m' res.
    + by rewrite (Hout Hd) in Hc.
Qed.

Lemma step_policies (m m' : t) :
  step m m' → policy_table_inv (approval_policies m) →
  policy_table_inv (approval_policies m').
Proof.
  intros Hstep Hinv. destruct Hstep as
    [ ne nc id s rl rq env m' res Hc | ne nc id s rl rq env Hc | now id
    | ncheck nappr id a c | id a c ].
  - destruct (create_returns_inv _ _ _ _ _ _ _ _ _ _ Hinv Hc)
      as [(_ & -> & _)|(_ & ps & n & Hps & _ & _ & Hm & _)]; [done|].
    cbn zeta in Hm. by subst m'.
  - destruct (create_inv ne nc m id s rl rq env Hinv) as [Hlow Hreq].
    destruct (decide (rl = "LOW")) as [Hl|Hl].
    + by rewrite (Hlow Hl) in Hc.
    + destruct (Hreq Hl) as (ps & n & Hps & _ & _ & Hraised & _).
      by rewrite Hraised.
  - unfold check_approval_status.
    destruct (get_request m id) as [[r0 o0]|]; [|done]. by case_match.
  - unfold approve_request.
    destruct (get_request m id) as [[r0 o0]|]; [|done].
    by repeat case_match.
  - unfold reject_request.
    destruct (get_request m id) as [[r0 o0]|]; [|done].
    by repeat case_match.
Qed.

Lemma steps_policies (m m' : t) :
  rtc step m m' → policy_table_inv (approval_policies m) →
  policy_table_inv (approval_policies m').
Proof.
  induction 1 as [m|m m1 m2 Hs _ IH]; [done|].
  intros Hinv. apply IH. by eapply step_policies.
Qed.

Lemma reachable_policies (m : t) :
  reachable m → policy_table_inv (approval_policies m).
Proof.
  intros Hr. eapply steps_policies; [exact Hr|]. apply policy_table_inv_initial.
Qed.

(** X16. The policy table of a manager in use only ever differs from the
    one [__init__] built in the approver lists of HIGH and CRITICAL, which
    are the initial lists followed by some number of appended cto,
    vp_engineering pairs; the LOW and MEDIUM entries, every [required]
    flag, every count and every timeout stay as they were, and no key is
    added or removed. *)
Theorem policy_table_invariant (m : t) :
  reachable m →
  approval_policies m !! "LOW" = Some (Policy.mk false 0 0 None)
  ∧ approval_policies m !! "MEDIUM"
    = Some (Policy.mk true 1 24 (Some ["ops_lead"; "senior_engineer"]))
  ∧ (∃ n, approval_policies m !! "HIGH"
          = Some (Policy.mk true 2 12
                    (Some (escalated ["ops_manager"; "engineering_manager"] n))))
  ∧ (∃ n, approval_policies m !! "CRITICAL"
          = Some (Policy.mk true 2 4
                    (Some (escalated ["ops_director"; "cto"; "vp_engineering"] n))))
  ∧ (∀ k, k ∉ ["LOW"; "MEDIUM"; "HIGH"; "CRITICAL"] →
          approval_policies m !! k = None).
Proof. apply reachable_policies. Qed.

Lemma reachable_after_prod_high : reachable after_prod_high.
Proof.
  eapply rtc_l; [|apply rtc_refl].
  eapply (step_create init 0 0 "REQ-1" "Cancel case CASE-1" "HIGH" "alice" "prod"
            after_prod_high (Some 0%nat)).
  by vm_compute.
Qed.

Lemma policy_table_invariant_witness :
  approval_policies after_prod_high !! "MEDIUM"
  = Some (Policy.mk true 1 24 (Some ["ops_lead"; "senior_engineer"])).
Proof.
  apply (policy_table_invariant after_prod_high). apply reachable_after_prod_high.
Defined.

(** X17. On a manager in use [create_approval_request] never raises
    [KeyError]. It answers "no approval needed" exactly for the level LOW,
    and then leaves the manager as it is. For every other level string,
    known or not, it returns a request when the clock reading plus the
    timeout of the level is a [datetime], and raises ([OverflowError])
    when that sum is past [datetime.max]; the requests and what was printed
    are then as before the call. *)
Theorem create_raises_only_on_overflow
    (now_expires now_created : Z) (m : t)
    (request_id operation_summary risk_level requester environment : string) :
  reachable m →
  (risk_level = "LOW" →
   create_approval_request now_expires now_created m request_id
     operation_summary risk_level requester environment = Some (m, None))
  ∧ (risk_level ≠ "LOW" →
     datetime_min ≤ now_expires + timedelta_hours (timeout_of risk_level)
       ≤ datetime_max →
     ∃ m' r,
       create_approval_request now_expires now_created m request_id
         operation_summary risk_level requester environment = Some (m', Some r))
  ∧ (risk_level ≠ "LOW" →
     ¬ (datetime_min ≤ now_expires + timedelta_hours (timeout_of risk_level)
          ≤ datetime_max) →
     create_approval_request now_expires now_created m request_id
       operation_summary risk_level requester environment = None
     ∧ approval_requests
         (create_approval_request_raised m risk_level environment)
       = approval_requests m
     ∧ heap (create_approval_request_raised m risk_level environment) = heap m
     ∧ printed (create_approval_request_raised m risk_level environment)
       = printed m).
Proof.
  intros Hr. apply reachable_policies in Hr.
  destruct (create_inv now_expires now_created m request_id operation_summary
              risk_level requester environment Hr) as [Hlow Hreq].
  split; [exact Hlow|]. split.
  - intros Hl Hd. destruct (Hreq Hl) as (ps & n & _ & _ & _ & _ & Hin & _).
    cbn zeta in Hin. eexists _, _. exact (Hin Hd).
  - intros Hl Hd. destruct (Hreq Hl) as (ps & n & _ & _ & _ & _ & _ & Hout).
    split; [exact (Hout Hd)|].
    destruct (create_raised_frame m risk_level environment) as (? & ? & ?).
    by repeat split.
Qed.

Lemma create_raises_only_on_overflow_witness :
  create_approval_request 5 6 after_prod_high "REQ-7" "Look" "LOW" "eve" "prod"
  = Some (after_prod_high, None)
  ∧ (∃ m' r,
       create_approval_request 5 6 after_prod_high "REQ-7" "Look" "HIGH" "eve"
         "prod" = Some (m', Some r))
  ∧ create_approval_request (datetime_max - 5) 6 after_prod_high "REQ-7" "Look"
      "HIGH" "eve" "prod" = None.
Proof.
  split; [|split].
  - apply (create_raises_only_on_overflow 5 6 after_prod_high "REQ-7" "Look"
             "LOW" "eve" "prod" reachable_after_prod_high). reflexivity.
  - apply (create_raises_only_on_overflow 5 6 after_prod_high "REQ-7" "Look"
             "HIGH" "eve" "prod" reachable_after_prod_high); [done|].
    by vm_compute.
  - apply (create_raises_only_on_overflow (datetime_max - 5) 6 after_prod_high
             "REQ-7" "Look" "HIGH" "eve" "prod" reachable_after_prod_high);
      [done|].
    intros [_ H]. by vm_compute in H.
Defined.

(** X29. A call of [create_approval_request] for HIGH or CRITICAL in prod
    that raises because [expires_at] overflows has all the same appended
    cto and vp_engineering to the approver list of the level in the policy
    table: [_get_eligible_approvers] runs before the expiry is computed. *)
Theorem raising_create_extends_table
    (now_expires now_created : Z) (m : t)
    (request_id operation_summary risk_level requester : string) :
  reachable m →
  risk_level = "HIGH" ∨ risk_level = "CRITICAL" →
  datetime_max < now_expires + timedelta_hours (timeout_of risk_level) →
  ∃ p l,
    create_approval_request now_expires now_created m request_id
      operation_summary risk_level requester "prod" = None
    ∧ approval_policies m !! risk_level = Some p
    ∧ Policy.eligible_approvers p = Some l
    ∧ approval_policies (create_approval_request_raised m risk_level "prod")
      = <[risk_level :=
            Policy.set_eligible_approvers (l ++ ["cto"; "vp_engineering"]) p]>
          (approval_policies m).
Proof.
  intros Hr Hl Hover. apply reachable_policies in Hr.
  assert (risk_level ≠ "LOW") as Hnl by (by destruct Hl as [-> | ->]).
  destruct (create_inv now_expires now_created m request_id operation_summary
              risk_level requester "prod" Hr) as [_ Hreq].
  destruct (Hreq Hnl) as (ps & n & _ & _ & _ & _ & _ & Hout).
  assert (create_approval_request now_expires now_created m request_id
            operation_summary risk_level requester "prod" = None) as Hc.
  { apply Hout. lia. }
  destruct Hr as (_ & _ & [nh Hhigh] & [nc Hcrit] & _).
  unfold create_approval_request_raised, _get_eligible_approvers, get_policy.
  rewrite Hhigh. cbn [mbind option_bind].
  destruct Hl as [-> | ->].
  - rewrite Hhigh. eexists _, _. split; [exact Hc|]. split; [done|].
    split; [done|]. done.
  - rewrite Hcrit. eexists _, _. split; [exact Hc|]. split; [done|].
    split; [done|]. done.
Qed.

Lemma raising_create_extends_table_witness :
  create_approval_request (datetime_max - 5) 0 init "REQ-1" "Cancel case CASE-1"
    "HIGH" "alice" "prod" = None
  ∧ Policy.eligible_approvers
      <$> approval_policies (create_approval_request_raised init "HIGH" "prod")
          !! "HIGH"
    = Some (Some ["ops_manager"; "engineering_manager"; "cto"; "vp_engineering"]).
Proof.
  destruct (raising_create_extends_table (datetime_max - 5) 0 init "REQ-1"
              "Cancel case CASE-1" "HIGH" "alice")
    as (p & l & Hc & Hp & Hl & Hps).
  - apply rtc_refl.
  - by left.
  - by vm_compute.
  - split; [exact Hc|]. rewrite Hps, lookup_insert_eq.
    vm_compute in Hp. apply (inj Some) in Hp. subst p.
    cbn in Hl. apply (inj Some) in Hl. by subst l.
Defined.

Lemma base_roles_table (risk_level : string) :
  risk_level ∈ ["MEDIUM"; "HIGH"; "CRITICAL"] →
  base_roles risk_level = table_roles risk_level.
Proof.
  intros Hl.
  repeat (apply elem_of_cons in Hl as [->|Hl]); [..|by apply elem_of_nil in Hl];
    by vm_compute.
Qed.

(** X18. On a manager in use, a request created for MEDIUM, HIGH or
    CRITICAL has no approver twice, has every approver the policy table of
    [__init__] prescribes for its level and environment, and has nobody
    besides them except possibly cto and vp_engineering. A MEDIUM request
    has exactly ops_lead and senior_engineer. *)
Theorem create_approvers_bounds
    (now_expires now_created : Z) (m m' : t)
    (request_id operation_summary risk_level requester environment : string)
    (r : ref) :
  reachable m →
  risk_level ∈ ["MEDIUM"; "HIGH"; "CRITICAL"] →
  create_approval_request now_expires now_created m request_id
    operation_summary risk_level requester environment = Some (m', Some r) →
  ∃ o, get_request m' request_id = Some (r, o)
       ∧ NoDup (ApprovalRequest.approvers o)
       ∧ (∀ a, a ∈ expected_approvers risk_level environment →
               a ∈ ApprovalRequest.approvers o)
       ∧ (∀ a, a ∈ ApprovalRequest.approvers o →
               a ∈ expected_approvers risk_level environment
               ∨ a = "cto" ∨ a = "vp_engineering")
       ∧ (risk_level = "MEDIUM" →
          ∀ a, a ∈ ApprovalRequest.approvers o ↔
               a = "ops_lead" ∨ a = "senior_engineer").
Proof.
  intros Hr Hl Hc. apply reachable_policies in Hr.
  assert (risk_level ≠ "LOW") as Hnl by (intros ->; set_solver).
  destruct (create_returns_inv _ _ _ _ _ _ _ _ _ _ Hr Hc)
    as [(? & _)|(_ & ps & n & _ & Hmed & Hprod & Hm & Hres & _)]; [done|].
  cbn zeta in Hm. apply (inj Some) in Hres. subst m' r.
  eexists. split.
  { apply get_request_Some. cbn [approval_requests heap].
    split; [apply lookup_insert_eq|by apply list_lookup_middle]. }
  cbn [ApprovalRequest.approvers]. split; [apply list_set_NoDup|].
  rewrite (base_roles_table _ Hl). split; [|split].
  - intros a. rewrite elem_of_list_set, elem_of_escalated,
      elem_of_expected_approvers. intros [?|(Hp & Hhc & Ha)]; [by left|].
    right. split; [by apply Hprod|done].
  - intros a. rewrite elem_of_list_set, elem_of_escalated,
      elem_of_expected_approvers. intros [?|[_ [?|?]]]; auto.
  - intros ->. rewrite (Hmed eq_refl). intros a.
    rewrite elem_of_list_set. cbn [escalated].
    rewrite (proj1 table_roles_values), !elem_of_cons, elem_of_nil. tauto.
Qed.

Lemma create_approvers_bounds_witness :
  ∃ m' r o,
    create_approval_request 0 0 after_prod_high "REQ-2" "Change status"
      "HIGH" "bob" "dev" = Some (m', Some r)
    ∧ get_request m' "REQ-2" = Some (r, o)
    ∧ "ops_manager" ∈ ApprovalRequest.approvers o
    ∧ "ops_lead" ∉ ApprovalRequest.approvers o.
Proof.
  assert (∃ m', create_approval_request 0 0 after_prod_high "REQ-2"
                  "Change status" "HIGH" "bob" "dev" = Some (m', Some 1%nat))
    as [m' Hc] by (eexists; by vm_compute).
  destruct (create_approvers_bounds 0 0 after_prod_high m' "REQ-2"
              "Change status" "HIGH" "bob" "dev" 1%nat reachable_after_prod_high)
    as (o & Hg & _ & Hsup & Hsub & _); [set_solver|exact Hc|].
  exists m', 1%nat, o. split; [exact Hc|]. split; [exact Hg|]. split.
  - apply Hsup. apply elem_of_expected_approvers. left.
    rewrite (proj1 (proj2 table_roles_values)). set_solver.
  - intros Hin. apply Hsub in Hin as [Hin|[?|?]]; [|done..].
    apply elem_of_expected_approvers in Hin as [Hin|(? & _)]; [|done].
    rewrite (proj1 (proj2 table_roles_values)) in Hin.
    rewrite !elem_of_cons, elem_of_nil in Hin. by destruct Hin as [?|[?|?]].
Defined.

(** *** Request objects *)

Lemma object_inv_expire (o : ApprovalRequest.t) :
  object_inv o → ApprovalRequest.status o = PENDING →
  object_inv (ApprovalRequest.set_status EXPIRED o).
Proof.
  intros (_ & Hnd & _ & Hna & _ & Hnr) Hs.
  rewrite Hs in Hna, Hnr.
  destruct (Hna ltac:(done)) as [Hby Hat]. specialize (Hnr ltac:(done)).
  unfold object_inv, ApprovalRequest.set_status.
  cbn [ApprovalRequest.status ApprovalRequest.approvers
       ApprovalRequest.approved_by ApprovalRequest.approved_at
       ApprovalRequest.rejection_reason].
  repeat split; try done.
Qed.

Lemma object_inv_approve (o : ApprovalRequest.t) (approver : string) (now : Z) :
  object_inv o → ApprovalRequest.status o = PENDING →
  approver ∈ ApprovalRequest.approvers o →
  object_inv
    (ApprovalRequest.set_approved_at (Some now)
       (ApprovalRequest.set_approved_by (Some approver)
          (ApprovalRequest.set_status APPROVED o))).
Proof.
  intros (_ & Hnd & _ & _ & _ & Hnr) Hs Hin.
  rewrite Hs in Hnr. specialize (Hnr ltac:(done)).
  unfold object_inv, ApprovalRequest.set_status,
    ApprovalRequest.set_approved_by, ApprovalRequest.set_approved_at.
  cbn [ApprovalRequest.status ApprovalRequest.approvers
       ApprovalRequest.approved_by ApprovalRequest.approved_at
       ApprovalRequest.rejection_reason].
  repeat split; try done. intros _. by exists approver, now.
Qed.

Lemma object_inv_reject (o : ApprovalRequest.t) (reason : string) :
  object_inv o → ApprovalRequest.status o = PENDING →
  object_inv
    (ApprovalRequest.set_rejection_reason (Some reason)
       (ApprovalRequest.set_status REJECTED o)).
Proof.
  intros (_ & Hnd & _ & Hna & _ & _) Hs.
  rewrite Hs in Hna. destruct (Hna ltac:(done)) as [Hby Hat].
  unfold object_inv, ApprovalRequest.set_status,
    ApprovalRequest.set_rejection_reason.
  cbn [ApprovalRequest.status ApprovalRequest.approvers
       ApprovalRequest.approved_by ApprovalRequest.approved_at
       ApprovalRequest.rejection_reason].
  repeat split; try done.
Qed.

(** An assignment to the object behind [r] that keeps its request id and
    the object invariant keeps the state invariant. *)
Lemma state_inv_store (m : t) (r : ref) (o o' : ApprovalRequest.t) :
  state_inv m → heap m !! r = Some o → object_inv o' →
  ApprovalRequest.request_id o' = ApprovalRequest.request_id o →
  state_inv (store r o' m).
Proof.
  intros (Hwf & Hobj & Hkey) Ho Ho' Hid. split; [|split].
  - intros id r' Hr'. cbn [store set_heap heap]. rewrite length_insert.
    by apply Hwf in Hr'.
  - intros r' o1 H1. cbn [store set_heap heap] in H1.
    destruct (decide (r' = r)) as [->|Hne].
    + rewrite list_lookup_insert_eq in H1 by (by eapply lookup_lt_Some).
      by injection H1 as <-.
    + rewrite list_lookup_insert_ne in H1 by done. by eapply Hobj.
  - intros id r' o1 Hg. apply get_request_Some in Hg as [Hr' H1].
    cbn [store set_heap heap approval_requests] in Hr', H1.
    destruct (decide (r' = r)) as [->|Hne].
    + rewrite list_lookup_insert_eq in H1 by (by eapply lookup_lt_Some).
      injection H1 as <-. rewrite Hid. apply (Hkey id r o).
      by apply get_request_Some.
    + rewrite list_lookup_insert_ne in H1 by done. apply (Hkey id r' o1).
      by apply get_request_Some.
Qed.

Lemma state_inv_print (m : t) (n : Notification) :
  state_inv m → state_inv (print n m).
Proof. done. Qed.

Lemma state_inv_init : state_inv init.
Proof.
  split; [apply wf_init|]. split.
  - intros r o H. by apply lookup_nil_Some in H || (cbn in H; done).
  - intros id r o H. apply get_request_Some in H as [H _]. done.
Qed.

Lemma object_inv_new
    (request_id operation_summary risk_level requester : string)
    (l : list string) (created expires : Z) :
  object_inv (ApprovalRequest.mk request_id operation_summary risk_level
                requester (list_set l) PENDING created expires None None None).
Proof.
  unfold object_inv.
  cbn [ApprovalRequest.status ApprovalRequest.approvers
       ApprovalRequest.approved_by ApprovalRequest.approved_at
       ApprovalRequest.rejection_reason].
  split; [done|]. split; [apply list_set_NoDup|]. by repeat split.
Qed.

Lemma step_state_inv (m m' : t) :
  step m m' → policy_table_inv (approval_policies m) → state_inv m →
  state_inv m'.
Proof.
  intros Hstep Hinv Hst. pose proof (step_wf m m' Hstep (proj1 Hst)) as Hwf'.
  destruct Hst as (Hwf & Hobj & Hkey).
  destruct Hstep as
    [ ne nc id s rl rq env m' res Hc | ne nc id s rl rq env Hc | now id
    | ncheck nappr id a c | id a c ].
  - destruct (create_returns_inv _ _ _ _ _ _ _ _ _ _ Hinv Hc)
      as [(_ & -> & _)|(_ & ps & n & _ & _ & _ & Hm & _)]; [done|].
    cbn zeta in Hm. subst m'.
    split; [done|]. split.
    + intros r o. cbn [heap]. intros Ho.
      apply lookup_app_Some in Ho as [Ho|[_ Ho]]; [by eapply Hobj|].
      apply list_lookup_singleton_Some in Ho as [_ <-]. apply object_inv_new.
    + intros id' r o Hg. apply get_request_Some in Hg as [Hr Ho].
      cbn [approval_requests heap] in Hr, Ho.
      destruct (decide (id' = id)) as [->|Hne].
      * rewrite lookup_insert_eq in Hr. injection Hr as <-.
        rewrite list_lookup_middle in Ho by done. by injection Ho as <-.
      * rewrite lookup_insert_ne in Hr by done.
        pose proof (Hwf _ _ Hr) as Hlt. cbn beta in Hlt.
        rewrite lookup_app_l in Ho by done.
        apply (Hkey id' r o). by apply get_request_Some.
  - destruct (create_raised_frame m rl env) as (Hh & Hr & _).
    split; [done|]. split.
    + intros r o. rewrite Hh. apply Hobj.
    + intros id' r o. rewrite get_request_Some, Hh, Hr, <- get_request_Some.
      apply Hkey.
  - unfold check_approval_status.
    destruct (get_request m id) as [[r0 o0]|] eqn:G; [|done].
    apply get_request_Some in G as [_ G].
    case_match eqn:C; [|done].
    apply andb_prop in C as [_ C%bool_decide_eq_true].
    cbn [fst]. eapply state_inv_store; [done|exact G| |done].
    apply object_inv_expire; [by eapply Hobj|done].
  - unfold approve_request.
    destruct (get_request m id) as [[r0 o0]|] eqn:G; [|done].
    apply get_request_Some in G as [_ G].
    case_bool_decide as Hs; cbn [negb]; [|done].
    destruct (str_in a (ApprovalRequest.approvers o0)) eqn:Hin; cbn [negb];
      [|done].
    apply str_in_spec in Hin.
    destruct (ApprovalRequest.expires_at o0 <? ncheck); cbn [fst].
    + eapply state_inv_store; [done|exact G| |done].
      apply object_inv_expire; [by eapply Hobj|done].
    + apply state_inv_print. eapply state_inv_store; [done|exact G| |done].
      apply object_inv_approve; [by eapply Hobj|done..].
  - unfold reject_request.
    destruct (get_request m id) as [[r0 o0]|] eqn:G; [|done].
    apply get_request_Some in G as [_ G].
    case_bool_decide as Hs; cbn [negb]; [|done].
    destruct (str_in a (ApprovalRequest.approvers o0)) eqn:Hin; cbn [negb];
      [|done].
    cbn [fst]. apply state_inv_print.
    eapply state_inv_store; [done|exact G| |done].
    apply object_inv_reject; [by eapply Hobj|done].
Qed.

Lemma steps_state_inv (m m' : t) :
  rtc step m m' → policy_table_inv (approval_policies m) → state_inv m →
  state_inv m'.
Proof.
  induction 1 as [m|m m1 m2 Hs _ IH]; [done|].
  intros Hinv Hst. apply IH; [by eapply step_policies|by eapply step_state_inv].
Qed.

Lemma reachable_state_inv (m : t) : reachable m → state_inv m.
Proof.
  intros Hr. eapply steps_state_inv; [exact Hr| |apply state_inv_init].
  apply policy_table_inv_initial.
Qed.

(** X19. In a manager in use, no request object is ever CANCELLED; an
    object has [approved_by] and [approved_at] exactly when it is APPROVED,
    and the approver is one of its approvers; it has a [rejection_reason]
    exactly when it is REJECTED; its approver list has no duplicate; and the
    object stored under a request id carries that id. *)
Theorem request_objects_invariant (m : t) :
  reachable m →
  (∀ r o, heap m !! r = Some o →
     ApprovalRequest.status o ≠ CANCELLED
     ∧ NoDup (ApprovalRequest.approvers o)
     ∧ (ApprovalRequest.status o = APPROVED ↔
        ∃ a, ApprovalRequest.approved_by o = Some a
             ∧ a ∈ ApprovalRequest.approvers o)
     ∧ (ApprovalRequest.status o = APPROVED ↔
        is_Some (ApprovalRequest.approved_at o))
     ∧ (ApprovalRequest.status o = REJECTED ↔
        is_Some (ApprovalRequest.rejection_reason o)))
  ∧ (∀ request_id r o, get_request m request_id = Some (r, o) →
       ApprovalRequest.request_id o = request_id).
Proof.
  intros Hr. destruct (reachable_state_inv m Hr) as (_ & Hobj & Hkey).
  split; [|exact Hkey].
  intros r o Ho. destruct (Hobj r o Ho) as (Hc & Hnd & Ha & Hna & Hrj & Hnrj).
  split; [done|]. split; [done|]. repeat split.
  - intros Hs. destruct (Ha Hs) as (a & t & ? & ? & ?). eauto.
  - intros (a & Hby & _).
    destruct (decide (ApprovalRequest.status o = APPROVED)) as [|Hn]; [done|].
    destruct (Hna Hn) as [? _]. congruence.
  - intros Hs. destruct (Ha Hs) as (a & t & ? & Hat & ?). rewrite Hat. eauto.
  - intros [t Hat].
    destruct (decide (ApprovalRequest.status o = APPROVED)) as [|Hn]; [done|].
    destruct (Hna Hn) as [_ ?]. congruence.
  - apply Hrj.
  - intros [x Hx].
    destruct (decide (ApprovalRequest.status o = REJECTED)) as [|Hn]; [done|].
    rewrite (Hnrj Hn) in Hx. done.
Qed.

Lemma reachable_medium_approved : reachable medium_approved.
Proof.
  eapply rtc_l.
  { eapply (step_create init 0 0 "REQ-1" "Cancel case CASE-1" "MEDIUM" "alice"
              "dev" medium_pending (Some 0%nat)). by vm_compute. }
  eapply rtc_l; [|apply rtc_refl].
  apply (step_approve medium_pending 1 2 "REQ-1" "ops_lead" "ok").
Qed.

Lemma request_objects_invariant_witness :
  ∃ o, get_request medium_approved "REQ-1" = Some (0%nat, o)
       ∧ ApprovalRequest.request_id o = "REQ-1"
       ∧ ApprovalRequest.status o ≠ CANCELLED.
Proof.
  destruct (request_objects_invariant medium_approved reachable_medium_approved)
    as [Hobj Hkey].
  eexists. split; [by vm_compute|]. split.
  - eapply Hkey. by vm_compute.
  - eapply (Hobj 0%nat). by vm_compute.
Defined.

(** *** How the operations compose *)

(** X20. Creating a request under an id replaces whatever record the id
    had, whatever its status: the id then refers to a new PENDING object
    with no decision recorded. Other ids keep their records, and every
    object made earlier is left as it was. *)
Theorem create_rebinds_id
    (now_expires now_created : Z) (m m' : t)
    (request_id operation_summary risk_level requester environment : string)
    (r : ref) :
  create_approval_request now_expires now_created m request_id
    operation_summary risk_level requester environment = Some (m', Some r) →
  (∃ o, get_request m' request_id = Some (r, o)
        ∧ ApprovalRequest.status o = PENDING
        ∧ ApprovalRequest.approved_by o = None
        ∧ ApprovalRequest.approved_at o = None
        ∧ ApprovalRequest.rejection_reason o = None)
  ∧ (∀ id', id' ≠ request_id →
       approval_requests m' !! id' = approval_requests m !! id')
  ∧ (∀ r0 o0, heap m !! r0 = Some o0 → r0 ≠ r ∧ heap m' !! r0 = Some o0).
Proof.
  intros Hc. split; [|split].
  - apply create_object in Hc as (key & p & m1 & l & _ & _ & _ & Hg).
    eexists. split; [exact Hg|]. done.
  - apply create_heap in Hc as [[? _]|(o & _ & _ & Hr & _)]; [done|].
    intros id' Hne. rewrite Hr. by apply lookup_insert_ne.
  - apply create_heap in Hc as [[? _]|(o & Hres & Hh & _ & _)]; [done|].
    apply (inj Some) in Hres. subst r.
    intros r0 o0 Ho. pose proof (lookup_lt_Some _ _ _ Ho) as Hlt. split; [lia|].
    rewrite Hh. by apply lookup_app_l_Some.
Qed.

Lemma create_rebinds_id_witness :
  ApprovalRequest.status <$> (snd <$> get_request medium_approved "REQ-1")
  = Some APPROVED
  ∧ ∃ m' r o,
      create_approval_request 9 9 medium_approved "REQ-1" "Cancel again"
        "MEDIUM" "alice" "dev" = Some (m', Some r)
      ∧ get_request m' "REQ-1" = Some (r, o)
      ∧ ApprovalRequest.status o = PENDING.
Proof.
  split; [by vm_compute|].
  assert (∃ m', create_approval_request 9 9 medium_approved "REQ-1"
                  "Cancel again" "MEDIUM" "alice" "dev" = Some (m', Some 1%nat))
    as [m' Hc] by (eexists; by vm_compute).
  destruct (create_rebinds_id _ _ _ _ _ _ _ _ _ _ Hc) as ((o & Hg & Hs & _) & _).
  exists m', 1%nat, o. split; [exact Hc|]. split; [exact Hg|exact Hs].
Defined.

Lemma approve_true_inv
    (now_check now_approved : Z) (m m' : t)
    (request_id approver comments : string) :
  approve_request now_check now_approved m request_id approver comments
  = (m', true) →
  ∃ r o o', get_request m request_id = Some (r, o)
            ∧ ApprovalRequest.status o = PENDING
            ∧ approver ∈ ApprovalRequest.approvers o
            ∧ now_check ≤ ApprovalRequest.expires_at o
            ∧ get_request m' request_id = Some (r, o')
            ∧ ApprovalRequest.status o' = APPROVED
            ∧ ApprovalRequest.approved_by o' = Some approver
            ∧ printed m'
              = (printed m ++ [DecisionMade (ApprovalRequest.request_id o)
                                 "APPROVED" (Some approver) comments])%list.
Proof.
  unfold approve_request.
  destruct (get_request m request_id) as [[r o]|] eqn:G; [|by intros [= _ ?]].
  case_bool_decide as Hs; cbn [negb]; [|by intros [= _ ?]].
  destruct (str_in approver (ApprovalRequest.approvers o)) eqn:Hin; cbn [negb];
    [|by intros [= _ ?]].
  destruct (ApprovalRequest.expires_at o <? now_check) eqn:Hexp;
    [by intros [= _ ?]|].
  intros H. apply (f_equal fst) in H. cbn [fst] in H. subst m'.
  apply str_in_spec in Hin. apply Z.ltb_ge in Hexp.
  eexists r, o, _. split; [done|]. split; [done|]. split; [done|].
  split; [done|].
  split; [rewrite get_request_print; by eapply get_request_store|]. done.
Qed.

Lemma reject_true_inv (m m' : t) (request_id approver reason : string) :
  reject_request m request_id approver reason = (m', true) →
  ∃ r o o', get_request m request_id = Some (r, o)
            ∧ ApprovalRequest.status o = PENDING
            ∧ approver ∈ ApprovalRequest.approvers o
            ∧ get_request m' request_id = Some (r, o')
            ∧ ApprovalRequest.status o' = REJECTED
            ∧ ApprovalRequest.rejection_reason o' = Some reason
            ∧ printed m'
              = (printed m ++ [DecisionMade (ApprovalRequest.request_id o)
                                 "REJECTED" (ApprovalRequest.approved_by o)
                                 reason])%list.
Proof.
  unfold reject_request.
  destruct (get_request m request_id) as [[r o]|] eqn:G; [|by intros [= _ ?]].
  case_bool_decide as Hs; cbn [negb]; [|by intros [= _ ?]].
  destruct (str_in approver (ApprovalRequest.approvers o)) eqn:Hin; cbn [negb];
    [|by intros [= _ ?]].
  intros H. apply (f_equal fst) in H. cbn [fst] in H. subst m'.
  apply str_in_spec in Hin.
  eexists r, o, _. split; [done|]. split; [done|]. split; [done|].
  split; [rewrite get_request_print; by eapply get_request_store|]. done.
Qed.

(** X21. The first decision wins: once [approve_request] or
    [reject_request] has returned true for a request id, every later
    approval, rejection or status check of that id, by anybody, at any time
    and after any other calls on the manager, leaves the manager as it is,
    and the two decisions return false, as long as the id refers to the
    record that was decided (a [create_approval_request] under the same id
    replaces it). *)
Theorem decision_is_final
    (now_check now_approved : Z) (m m' m'' : t)
    (request_id approver text : string) :
  approve_request now_check now_approved m request_id approver text = (m', true)
  ∨ reject_request m request_id approver text = (m', true) →
  rtc step m' m'' →
  approval_requests m'' !! request_id = approval_requests m' !! request_id →
  (∀ now_check' now_approved' approver' comments,
     approve_request now_check' now_approved' m'' request_id approver' comments
     = (m'', false))
  ∧ (∀ approver' reason,
       reject_request m'' request_id approver' reason = (m'', false))
  ∧ (∀ now, (check_approval_status now m'' request_id).1 = m'').
Proof.
  intros Hd Hsteps Hid.
  assert (∃ r o', get_request m' request_id = Some (r, o')
                  ∧ ApprovalRequest.status o' ≠ PENDING) as (r & o' & Hg & Hs).
  { destruct Hd as [Ha|Hr].
    - apply approve_true_inv in Ha as (r & o & o' & _ & _ & _ & _ & Hg & Hs & _).
      exists r, o'. split; [done|]. by rewrite Hs.
    - apply reject_true_inv in Hr as (r & o & o' & _ & _ & _ & Hg & Hs & _).
      exists r, o'. split; [done|]. by rewrite Hs. }
  apply get_request_Some in Hg as [Hr Ho]. rewrite Hr in Hid.
  destruct (not_pending_later m' m'' request_id r o' Ho Hs Hsteps) as [_ Hnoop].
  destruct (Hnoop Hid) as (H1 & H2 & H3).
  split; [done|]. split; [done|]. intros now. by rewrite H3.
Qed.

Lemma decision_is_final_witness :
  reject_request medium_approved "REQ-1" "senior_engineer" "changed my mind"
  = (medium_approved, false).
Proof.
  apply (decision_is_final 1 2 medium_pending medium_approved medium_approved
           "REQ-1" "ops_lead" "ok").
  - left. by vm_compute.
  - apply rtc_refl.
  - reflexivity.
Defined.

(** X22. Once a status check has found a PENDING record past its expiry,
    the record is EXPIRED for good: in every later state, every approval
    and every rejection of its id returns false and changes nothing, as long
    as the id refers to that record. *)
Theorem expiry_on_read_is_final
    (now : Z) (m : t) (request_id : string) (r : ref) (o : ApprovalRequest.t) :
  get_request m request_id = Some (r, o) →
  ApprovalRequest.status o = PENDING →
  ApprovalRequest.expires_at o < now →
  ∃ m' o',
    check_approval_status now m request_id = (m', Some r)
    ∧ get_request m' request_id = Some (r, o')
    ∧ ApprovalRequest.status o' = EXPIRED
    ∧ ∀ m'', rtc step m' m'' →
        heap m'' !! r = Some o'
        ∧ (approval_requests m'' !! request_id = Some r →
           (∀ now_check now_approved approver comments,
              approve_request now_check now_approved m'' request_id approver
                comments = (m'', false))
           ∧ (∀ approver reason,
                reject_request m'' request_id approver reason = (m'', false))).
Proof.
  intros Hg Hs Hexp.
  assert (check_approval_status now m request_id
          = (store r (ApprovalRequest.set_status EXPIRED o) m, Some r)) as Hc.
  { unfold check_approval_status. rewrite Hg.
    apply Z.ltb_lt in Hexp. by rewrite Hexp, (bool_decide_eq_true_2 _ Hs). }
  pose proof (get_request_store m request_id r o
                (ApprovalRequest.set_status EXPIRED o) Hg) as Hg'.
  eexists _, _. split; [exact Hc|]. split; [exact Hg'|]. split; [done|].
  intros m'' Hsteps. apply get_request_Some in Hg' as [_ Ho'].
  destruct (not_pending_later _ m'' request_id r _ Ho' ltac:(done) Hsteps)
    as [Hh Hnoop].
  split; [exact Hh|]. intros Hid. destruct (Hnoop Hid) as (H1 & H2 & _).
  by split.
Qed.

Lemma expiry_on_read_is_final_witness :
  ∃ m' o',
    check_approval_status 86400000001 medium_pending "REQ-1" = (m', Some 0%nat)
    ∧ get_request m' "REQ-1" = Some (0%nat, o')
    ∧ ApprovalRequest.status o' = EXPIRED
    ∧ reject_request m' "REQ-1" "ops_lead" "late" = (m', false).
Proof.
  destruct (expiry_on_read_is_final 86400000001 medium_pending "REQ-1" 0%nat
              medium_request) as (m' & o' & Hc & Hg & Hs & Hlater);
    [by vm_compute | done | by vm_compute |].
  exists m', o'. split; [exact Hc|]. split; [exact Hg|]. split; [exact Hs|].
  apply (Hlater m' (rtc_refl _ _)).
  by apply get_request_Some in Hg as [Hid _].
Defined.

(** X23. What is printed about decisions on a manager in use. A successful
    approval prints one decision line naming the request id and the
    approver; a successful rejection prints one naming the request id and
    nobody ([approved_by] is still unset); a failed approval or rejection
    prints nothing. *)
Theorem decision_notifications
    (now_check now_approved : Z) (m m' : t)
    (request_id approver text : string) :
  reachable m →
  (approve_request now_check now_approved m request_id approver text
   = (m', true) →
   printed m'
   = (printed m ++ [DecisionMade request_id "APPROVED" (Some approver) text])%list)
  ∧ (reject_request m request_id approver text = (m', true) →
     printed m'
     = (printed m ++ [DecisionMade request_id "REJECTED" None text])%list)
  ∧ (approve_request now_check now_approved m request_id approver text
     = (m', false) → printed m' = printed m)
  ∧ (reject_request m request_id approver text = (m', false) →
     printed m' = printed m).
Proof.
  intros Hr. destruct (reachable_state_inv m Hr) as (_ & Hobj & Hkey).
  split; [|split; [|split]].
  - intros Ha.
    apply approve_true_inv in Ha as (r & o & o' & Hg & _ & _ & _ & _ & _ & _ & ->).
    by rewrite (Hkey _ _ _ Hg).
  - intros Hrj.
    apply reject_true_inv in Hrj as (r & o & o' & Hg & Hs & _ & _ & _ & _ & ->).
    rewrite (Hkey _ _ _ Hg).
    apply get_request_Some in Hg as [_ Ho].
    destruct (Hobj _ _ Ho) as (_ & _ & _ & Hna & _).
    destruct Hna as [-> _]; [by rewrite Hs|done].
  - unfold approve_request.
    destruct (get_request m request_id) as [[r o]|]; [|by intros [= <-]].
    repeat case_match; intros Hx; try (by apply (f_equal snd) in Hx);
      apply (f_equal fst) in Hx; cbn [fst] in Hx; by subst m'.
  - unfold reject_request.
    destruct (get_request m request_id) as [[r o]|]; [|by intros [= <-]].
    repeat case_match; intros Hx; try (by apply (f_equal snd) in Hx);
      apply (f_equal fst) in Hx; cbn [fst] in Hx; by subst m'.
Qed.

Lemma reachable_medium_pending : reachable medium_pending.
Proof.
  eapply rtc_l; [|apply rtc_refl].
  eapply (step_create init 0 0 "REQ-1" "Cancel case CASE-1" "MEDIUM" "alice"
            "dev" medium_pending (Some 0%nat)). by vm_compute.
Qed.

Lemma decision_notifications_witness :
  ∃ m', reject_request medium_pending "REQ-1" "ops_lead" "no" = (m', true)
        ∧ printed m' = (printed medium_pending
                        ++ [DecisionMade "REQ-1" "REJECTED" None "no"])%list.
Proof.
  eexists. split; [by vm_compute|].
  eapply (decision_notifications 0 0 medium_pending _ "REQ-1" "ops_lead" "no"
            reachable_medium_pending). by vm_compute.
Defined.

(** *** Unknown risk levels *)

(** C10, amended. On a manager in use, [create_approval_request] with a
    level outside LOW, MEDIUM, HIGH and CRITICAL never answers "no
    approval", and raises only when the clock reading plus 12 hours is past
    [datetime.max]. Otherwise it stores a PENDING request under the request
    id that carries the level as given and expires 12 hours after the clock
    reading; its approvers are, each once, the ones the HIGH entry of the
    policy table lists at that moment, which are ops_manager and
    engineering_manager while that entry is as [__init__] built it (and
    besides them at most cto and vp_engineering); the call adds nobody in
    any environment, prod included, and leaves the policy table as it
    was. *)
Theorem create_unknown_level_uses_high_policy
    (now_expires now_created : Z) (m : t)
    (request_id operation_summary risk_level requester environment : string) :
  reachable m →
  risk_level ∉ ["LOW"; "MEDIUM"; "HIGH"; "CRITICAL"] →
  datetime_min ≤ now_expires ≤ datetime_max →
  ∃ high,
    approval_policies m !! "HIGH" = Some (Policy.mk true 2 12 (Some high))
    ∧ (high = ["ops_manager"; "engineering_manager"]
       ∨ ∀ a, a ∈ high ↔
              a ∈ ["ops_manager"; "engineering_manager"; "cto"; "vp_engineering"])
    ∧ (now_expires + timedelta_hours 12 ≤ datetime_max →
       ∃ m' r o,
         create_approval_request now_expires now_created m request_id
           operation_summary risk_level requester environment
         = Some (m', Some r)
         ∧ get_request m' request_id = Some (r, o)
         ∧ ApprovalRequest.status o = PENDING
         ∧ ApprovalRequest.risk_level o = risk_level
         ∧ ApprovalRequest.created_at o = now_created
         ∧ ApprovalRequest.expires_at o = now_expires + timedelta_hours 12
         ∧ (∀ a, a ∈ ApprovalRequest.approvers o ↔ a ∈ high)
         ∧ NoDup (ApprovalRequest.approvers o)
         ∧ approval_policies m' = approval_policies m)
    ∧ (datetime_max < now_expires + timedelta_hours 12 →
       create_approval_request now_expires now_created m request_id
         operation_summary risk_level requester environment = None
       ∧ create_approval_request_raised m risk_level environment = m).
Proof.
  intros Hr Hl [Hlo Hhi]. apply reachable_policies in Hr.
  destruct Hr as (_ & _ & [n Hhigh] & _ & Hother).
  exists (escalated ["ops_manager"; "engineering_manager"] n).
  split; [exact Hhigh|]. split.
  { destruct n as [|n]; [by left|]. right. intros a.
    rewrite elem_of_escalated, !elem_of_cons, elem_of_nil.
    split; [tauto|].
    intros [?|[?|[?|[?|[]]]]]; auto; right; (split; [done|auto]). }
  assert (get_policy (approval_policies m) risk_level
          = Some ("HIGH",
                  Policy.mk true 2 12
                    (Some (escalated ["ops_manager"; "engineering_manager"] n))))
    as Hp.
  { unfold get_policy. by rewrite Hhigh, (Hother _ Hl). }
  assert (str_in risk_level ["HIGH"; "CRITICAL"] = false) as Hin.
  { apply bool_decide_eq_false_2. intros Hin. apply Hl. set_solver. }
  assert (_get_eligible_approvers m risk_level environment
          = Some (m, list_set (escalated ["ops_manager"; "engineering_manager"] n)))
    as He.
  { unfold _get_eligible_approvers. rewrite Hp, Hin, andb_false_r. done. }
  assert (datetime_min ≤ now_expires + timedelta_hours 12) as Hlo'.
  { unfold timedelta_hours. lia. }
  unfold create_approval_request. rewrite Hp. cbn [mbind option_bind negb
    Policy.required Policy.timeout_hours].
  rewrite He. cbn [mbind option_bind]. split.
  - intros Hok. rewrite add_hours_in_range; [|by vm_compute|done].
    cbn [mbind option_bind].
    eexists _, _, _. split; [done|]. split.
    { rewrite get_request_print. apply get_request_Some.
      cbn [approval_requests heap].
      split; [apply lookup_insert_eq|by apply list_lookup_middle]. }
    cbn [ApprovalRequest.status ApprovalRequest.created_at
         ApprovalRequest.risk_level
         ApprovalRequest.expires_at ApprovalRequest.approvers].
    split; [done|]. split; [done|]. split; [done|]. split; [done|]. split.
    { intros a. by rewrite elem_of_list_set. }
    split; [apply list_set_NoDup|done].
  - intros Hover. rewrite add_hours_out_of_range by lia. split; [done|].
    unfold create_approval_request_raised. by rewrite He.
Qed.

Lemma create_unknown_level_uses_high_policy_witness :
  ∃ m' r o,
    create_approval_request 7 8 init "REQ-1" "Cancel case CASE-1"
      "SEVERE" "alice" "prod" = Some (m', Some r)
    ∧ get_request m' "REQ-1" = Some (r, o)
    ∧ ApprovalRequest.status o = PENDING
    ∧ ApprovalRequest.expires_at o = 7 + timedelta_hours 12
    ∧ (∀ a, a ∈ ApprovalRequest.approvers o ↔
            a ∈ ["ops_manager"; "engineering_manager"])
    ∧ NoDup (ApprovalRequest.approvers o).
Proof.
  destruct (create_unknown_level_uses_high_policy 7 8 init "REQ-1"
              "Cancel case CASE-1" "SEVERE" "alice" "prod")
    as (high & Hhigh & _ & Hok & _).
  - apply rtc_refl.
  - apply (bool_decide_unpack _). by vm_compute.
  - by vm_compute.
  - destruct Hok as (m' & r & o & Hc & Hg & Hs & _ & _ & He & Ha & Hn & _);
      [by vm_compute|].
    assert (high = ["ops_manager"; "engineering_manager"]) as ->.
    { apply (inj Some). apply (f_equal (fmap Policy.eligible_approvers)) in Hhigh.
      vm_compute in Hhigh. apply (inj Some) in Hhigh. by rewrite Hhigh. }
    by exists m', r, o.
Defined.

End ApprovalManagerInvariants.

(** ** The queue of an approver *)

Module ApprovalManagerQueries.
Import Py ApprovalManager ApprovalManagerFacts Samples.

Lemma insert_by_expiry_Permutation (x : ApprovalRequest.t)
    (l : list ApprovalRequest.t) :
  insert_by_expiry x l ≡ₚ x :: l.
Proof.
  induction l as [|y l IH]; cbn [insert_by_expiry]; [done|].
  case_match; [done|]. rewrite IH. apply Permutation_swap.
Qed.

Lemma insert_by_expiry_Sorted (x : ApprovalRequest.t)
    (l : list ApprovalRequest.t) :
  StronglySorted expires_le l → StronglySorted expires_le (insert_by_expiry x l).
Proof.
  induction 1 as [|y l Hs IH Hall]; cbn [insert_by_expiry].
  - by repeat constructor.
  - destruct (Z.ltb_spec (ApprovalRequest.expires_at x)
                (ApprovalRequest.expires_at y)) as [Hlt|Hge].
    + constructor; [by constructor|].
      constructor; [unfold expires_le; lia|].
      eapply Forall_impl; [exact Hall|]. unfold expires_le. intros z Hz. lia.
    + constructor; [done|].
      rewrite insert_by_expiry_Permutation. by constructor.
Qed.

Lemma sorted_by_expiry_spec (l : list ApprovalRequest.t) :
  sorted_by_expiry l ≡ₚ l ∧ StronglySorted expires_le (sorted_by_expiry l).
Proof.
  unfold sorted_by_expiry.
  assert (∀ acc, StronglySorted expires_le acc →
            fold_left (λ acc x, insert_by_expiry x acc) l acc ≡ₚ acc ++ l
            ∧ StronglySorted expires_le
                (fold_left (λ acc x, insert_by_expiry x acc) l acc)) as H.
  { induction l as [|x l IH]; intros acc Hacc; cbn [fold_left].
    - by rewrite app_nil_r.
    - destruct (IH _ (insert_by_expiry_Sorted x acc Hacc)) as [Hp Hs].
      split; [|done]. rewrite Hp, insert_by_expiry_Permutation.
      cbn [app]. apply Permutation_middle. }
  apply (H []). constructor.
Qed.

Lemma elem_of_pending_loop
    (clock : nat → Z) (k : nat) (approver : string)
    (l : list ApprovalRequest.t) (o : ApprovalRequest.t) :
  o ∈ pending_loop clock k approver l →
  o ∈ l ∧ ApprovalRequest.status o = PENDING
  ∧ approver ∈ ApprovalRequest.approvers o
  ∧ ∃ j, clock j ≤ ApprovalRequest.expires_at o.
Proof.
  revert k. induction l as [|x l IH]; intros k; cbn [pending_loop].
  - by intros ?%elem_of_nil.
  - destruct (bool_decide (ApprovalRequest.status x = PENDING)) eqn:Hs;
      cbn [andb]; [|by intros (? & ?)%IH; split; [right|]].
    destruct (str_in approver (ApprovalRequest.approvers x)) eqn:Hin;
      [|by intros (? & ?)%IH; split; [right|]].
    destruct (Z.leb_spec (clock k) (ApprovalRequest.expires_at x)) as [Hle|Hgt];
      [|by intros (? & ?)%IH; split; [right|]].
    intros [->|Ho]%elem_of_cons; [|by apply IH in Ho as (? & ?); split; [right|]].
    split; [by left|]. apply bool_decide_eq_true in Hs. apply str_in_spec in Hin.
    eauto.
Qed.

Lemma pending_loop_complete
    (clock : nat → Z) (k : nat) (approver : string)
    (l : list ApprovalRequest.t) (o : ApprovalRequest.t) :
  o ∈ l → ApprovalRequest.status o = PENDING →
  approver ∈ ApprovalRequest.approvers o →
  (∀ j, clock j ≤ ApprovalRequest.expires_at o) →
  o ∈ pending_loop clock k approver l.
Proof.
  intros Hin Hs Ha Hc. revert k.
  induction l as [|x l IH]; intros k; [by apply elem_of_nil in Hin|].
  cbn [pending_loop]. apply elem_of_cons in Hin as [<-|Hin].
  - rewrite (bool_decide_eq_true_2 _ Hs). apply str_in_spec in Ha. rewrite Ha.
    cbn [andb]. specialize (Hc k). apply Z.leb_le in Hc. rewrite Hc. by left.
  - repeat case_match; try (right); by apply IH.
Qed.

Lemma elem_of_values (order : list string) (m : t) (o : ApprovalRequest.t) :
  o ∈ values order m ↔
  ∃ request_id r, request_id ∈ order ∧ get_request m request_id = Some (r, o).
Proof.
  unfold values. rewrite list_elem_of_omap. split.
  - intros (id & Hid & Hg).
    destruct (get_request m id) as [[r o']|] eqn:G; [|done].
    injection Hg as <-. by exists id, r.
  - intros (id & r & Hid & Hg). exists id. by rewrite Hg.
Qed.

(** X26. [get_pending_approvals], when every reading of the clock during
    the call lies between [t0] and [t1]: the result is in ascending order of
    [expires_at]; everything in it is a stored request that is PENDING, has
    the approver among its approvers and expires no earlier than [t0]; and
    every stored PENDING request of the approver that expires no earlier
    than [t1] is in it. *)
Theorem get_pending_approvals_spec
    (clock : nat → Z) (order : list string) (m : t) (approver : string)
    (t0 t1 : Z) :
  (∀ k, t0 ≤ clock k ≤ t1) →
  StronglySorted expires_le (get_pending_approvals clock order m approver)
  ∧ (∀ o, o ∈ get_pending_approvals clock order m approver →
       (∃ request_id r,
          request_id ∈ order ∧ get_request m request_id = Some (r, o))
       ∧ ApprovalRequest.status o = PENDING
       ∧ approver ∈ ApprovalRequest.approvers o
       ∧ t0 ≤ ApprovalRequest.expires_at o)
  ∧ (∀ request_id r o,
       request_id ∈ order → get_request m request_id = Some (r, o) →
       ApprovalRequest.status o = PENDING →
       approver ∈ ApprovalRequest.approvers o →
       t1 ≤ ApprovalRequest.expires_at o →
       o ∈ get_pending_approvals clock order m approver).
Proof.
  intros Hclock. unfold get_pending_approvals.
  destruct (sorted_by_expiry_spec
              (pending_loop clock 0 approver (values order m))) as [Hp Hs].
  split; [done|]. split.
  - intros o Ho. rewrite Hp in Ho.
    apply elem_of_pending_loop in Ho as (Hv & Hst & Ha & j & Hj).
    apply elem_of_values in Hv. repeat split; try done.
    specialize (Hclock j). lia.
  - intros id r o Hid Hg Hst Ha Ht. rewrite Hp.
    apply pending_loop_complete; try done.
    + apply elem_of_values. eauto.
    + intros j. specialize (Hclock j). lia.
Qed.

Lemma get_pending_approvals_spec_witness :
  medium_request ∈ get_pending_approvals (λ _, 5) ["REQ-1"] medium_pending "ops_lead".
Proof.
  destruct (get_pending_approvals_spec (λ _, 5) ["REQ-1"] medium_pending
              "ops_lead" 5 5) as (_ & _ & Hin); [lia|].
  apply (Hin "REQ-1" 0%nat).
  - apply list_elem_of_here.
  - by vm_compute.
  - done.
  - by apply (bool_decide_unpack _).
  - by vm_compute.
Defined.

End ApprovalManagerQueries.

(** ** The request validator *)

Module RequestValidatorFacts.
Import Py RequestValidator Samples.

Lemma validate_headers_ok (headers : gmap string string) :
  validate_headers headers = (true, None) ↔
  (∃ auth, headers !! "Authorization" = Some auth
           ∧ String.prefix "Bearer " auth = true)
  ∧ (∃ user_id, headers !! "X-User-ID" = Some user_id ∧ user_id ≠ "").
Proof.
  unfold validate_headers.
  destruct (headers !! "Authorization") as [auth|];
    [|split; [done|by intros [(? & ? & _) _]]].
  destruct (String.eqb_spec auth "") as [->|Hne].
  { split; [done|]. by intros [(? & [= <-] & ?) _]. }
  destruct (String.prefix "Bearer " auth) eqn:Hp; cbn [negb];
    [|split; [done|]; intros [(? & [= <-] & ?) _]; congruence].
  destruct (headers !! "X-User-ID") as [user_id|];
    [|split; [done|by intros [_ (? & ? & _)]]].
  destruct (String.eqb_spec user_id "") as [->|Hne'].
  { split; [done|]. by intros [_ (? & [= <-] & ?)]. }
  split; [|done]. intros _. split; eauto.
Qed.

Lemma validate_content_type_ok (headers : gmap string string) :
  validate_content_type headers = (true, None) ↔
  ∃ ct, headers !! "Content-Type" = Some ct
        ∧ String.prefix "application/json" ct = true.
Proof.
  unfold validate_content_type. cbv zeta.
  destruct (headers !! "Content-Type") as [ct|]; cbn [default from_option id].
  - destruct (String.prefix "application/json" ct) eqn:Hp; cbn [negb].
    + split; [eauto|done].
    + split; [done|]. intros (? & [= <-] & ?). congruence.
  - replace (String.prefix "application/json" "") with false by (by vm_compute).
    cbn [negb]. split; [done|]. by intros (? & ? & _).
Qed.

Lemma validate_request_data_ok (request_data : gmap string PyVal) :
  validate_request_data request_data = (true, None) ↔
  (∃ query, request_data !! "query" = Some (PyStr query)
            ∧ strip_is_empty query = false)
  ∧ (∀ v, request_data !! "environment" = Some v →
          truthy v = false ∨ is_known_environment v = true).
Proof.
  unfold validate_request_data.
  destruct (request_data !! "query") as [[| | | |query| |]|];
    try (split; [done|by intros [(? & ? & _) _]]).
  destruct (String.eqb_spec query "") as [->|Hne].
  { split; [done|]. intros [(? & [= <-] & Hs) _]. by vm_compute in Hs. }
  destruct (strip_is_empty query) eqn:Hs.
  { split; [done|]. intros [(? & [= <-] & ?) _]. congruence. }
  destruct (request_data !! "environment") as [v|].
  - destruct (truthy v) eqn:Ht; destruct (is_known_environment v) eqn:Hk;
      cbn [andb negb]; split; try done; try (intros _; split; [eauto|]);
      try (intros ? [= <-]; auto).
    intros [_ Hv]. destruct (Hv v eq_refl); congruence.
  - split; [|done]. intros _. split; [eauto|done].
Qed.

(** The three checks report success with no message, failure with one. *)
Lemma results_well_formed
    (headers : gmap string string) (request_data : gmap string PyVal) :
  (∀ res, res ∈ [validate_headers headers; validate_content_type headers;
                 validate_request_data request_data] →
          res = (true, None) ∨ ∃ msg, res = (false, Some msg)).
Proof.
  intros res Hres.
  repeat (apply elem_of_cons in Hres as [->|Hres]);
    [..|by apply elem_of_nil in Hres].
  - unfold validate_headers. repeat case_match; eauto.
  - unfold validate_content_type. repeat case_match; eauto.
  - unfold validate_request_data. repeat case_match; eauto.
Qed.

(** X27. [validate_request] accepts exactly the requests whose
    Authorization header starts with "Bearer ", whose X-User-ID header is
    not empty, whose Content-Type header starts with "application/json",
    whose query is a string that is not all white space, and whose
    environment, when given and not falsy (empty string, null, 0, false,
    empty list or object), is one of dev, staging and prod. *)
Theorem validate_request_accepts_iff
    (headers : gmap string string) (request_data : gmap string PyVal) :
  validate_request headers request_data = (true, None) ↔
  (∃ auth, headers !! "Authorization" = Some auth
           ∧ String.prefix "Bearer " auth = true)
  ∧ (∃ user_id, headers !! "X-User-ID" = Some user_id ∧ user_id ≠ "")
  ∧ (∃ ct, headers !! "Content-Type" = Some ct
           ∧ String.prefix "application/json" ct = true)
  ∧ (∃ query, request_data !! "query" = Some (PyStr query)
              ∧ strip_is_empty query = false)
  ∧ (∀ v, request_data !! "environment" = Some v →
          truthy v = false ∨ is_known_environment v = true).
Proof.
  rewrite <- validate_request_data_ok, <- validate_content_type_ok.
  rewrite (and_assoc (∃ auth, _)), <- validate_headers_ok.
  unfold validate_request.
  destruct (results_well_formed headers request_data (validate_headers headers))
    as [->|[m1 ->]]; [set_solver| |cbn [negb]; split; [done|by intros [? _]]].
  destruct (results_well_formed headers request_data
              (validate_content_type headers))
    as [->|[m2 ->]]; [set_solver| |cbn [negb]; split; [done|by intros (_ & ? & _)]].
  destruct (results_well_formed headers request_data
              (validate_request_data request_data))
    as [->|[m3 ->]]; [set_solver| |cbn [negb]; split; [done|by intros (_ & _ & ?)]].
  done.
Qed.

(** X28. [validate_request] returns either success with no message or
    failure with a message, and the message of a failure is the one of the
    first failing check, in the order headers, content type, request
    data. *)
Theorem validate_request_result
    (headers : gmap string string) (request_data : gmap string PyVal) :
  (validate_request headers request_data = (true, None)
   ∨ ∃ msg, validate_request headers request_data = (false, Some msg))
  ∧ (∀ msg, validate_headers headers = (false, Some msg) →
            validate_request headers request_data = (false, Some msg))
  ∧ (∀ msg, validate_headers headers = (true, None) →
            validate_content_type headers = (false, Some msg) →
            validate_request headers request_data = (false, Some msg)).
Proof.
  unfold validate_request. split; [|split].
  - destruct (results_well_formed headers request_data
                (validate_headers headers)) as [->|[m1 ->]];
      [set_solver| |by right; eexists].
    destruct (results_well_formed headers request_data
                (validate_content_type headers)) as [->|[m2 ->]];
      [set_solver| |by right; eexists].
    destruct (results_well_formed headers request_data
                (validate_request_data request_data)) as [->|[m3 ->]];
      [set_solver| |by right; eexists].
    by left.
  - by intros msg ->.
  - by intros msg -> ->.
Qed.

Lemma validate_request_result_witness :
  validate_request ∅ good_data = (false, Some "Missing Authorization header").
Proof.
  apply (proj1 (proj2 (validate_request_result ∅ good_data))). by vm_compute.
Defined.

(** A request with an empty environment string passes. *)
Lemma validate_request_accepts_sample :
  validate_request good_headers good_data = (true, None).
Proof. by vm_compute. Qed.

End RequestValidatorFacts.
